(** * Lightecho Stellar oracle: the command-line clients and the batch feeder

    A shallow embedding of
      - [oracle-onchain/sep40/cli/scripts/feed_bulk_from_db.py] (the batch
        feeder: timestamp normalisation, reading the [prices] table, grouping
        by settlement asset, submission through the CLI, marking rows),
      - [oracle-onchain/sep40/cli/cli.py] and
        [oracle-onchain/sep40/examples/price_up_down/cli/cli.py] (the two
        command-line clients: [abort], [build_asset_enum], [wait_tx]).

    Python integers are [Z]; Python floats are IEEE-754 binary64 values,
    taken from the Standard Library's executable specification [SpecFloat];
    exceptions are an explicit result type. *)

From Stdlib Require Import ZArith Lia Bool List.
From Stdlib Require Import Floats.SpecFloat.
From Stdlib Require Import Sorting.Sorted.
From stdpp Require Import gmap strings list fin_maps pretty.

Local Open Scope Z_scope.

(** ** Exceptions and results *)

Inductive exn : Type :=
| ValueError (msg : string)
| OverflowError (msg : string)
| ZeroDivisionError (msg : string)
| KeyError (msg : string)
| RuntimeError (msg : string)
| TyperExit (code : Z).

Inductive result (A : Type) : Type :=
| Return (a : A)
| Raise (e : exn).

Arguments Return {A} a.
Arguments Raise {A} e.

Definition bind {A B : Type} (c : result A) (k : A -> result B) : result B :=
  match c with
  | Return a => k a
  | Raise e => Raise e
  end.

Declare Scope py_scope.
Delimit Scope py_scope with py.
Notation "'let!' x ':=' c 'in' k" := (bind c (fun x => k))
  (at level 10, x name, c at level 100, k at level 200) : py_scope.
Local Open Scope py_scope.

(** ** Output, exit codes and dynamically typed arguments

    A command of a CLI prints lines, sleeps, and returns or raises. *)

Inductive event : Type :=
| Print (line : string)
| Sleep (seconds : Z).

Definition cli (A : Type) : Type := (list event * result A)%type.

Definition cli_bind {A B : Type} (c : cli A) (k : A -> cli B) : cli B :=
  match c with
  | (evs, Return a) => let '(evs', r) := k a in (evs ++ evs', r)
  | (evs, Raise e) => (evs, Raise e)
  end.

Definition emit (evs : list event) : cli unit := (evs, Return tt).

Notation "'run!' x ':=' c 'in' k" := (cli_bind c (fun x => k))
  (at level 10, x name, c at level 100, k at level 200) : py_scope.

(** The exit status of the process when [app()] ends with [r]: 0 on a normal
    return, the code of a [typer.Exit], 1 for any other uncaught exception. *)
Definition process_exit_code {A : Type} (r : result A) : Z :=
  match r with
  | Return _ => 0
  | Raise (TyperExit code) => code
  | Raise _ => 1
  end.

(** colorama's [Fore.RED] and [Style.RESET_ALL]. *)
Definition ESC : string := String (Ascii.ascii_of_nat 27) "".
Definition Fore_RED : string := ESC +:+ "[31m".
Definition Style_RESET_ALL : string := ESC +:+ "[0m".

(** A Python value met where a member of the enumeration [E] is expected. *)
Inductive py_value (E : Type) : Type :=
| Member (e : E)
| PyStr (s : string)
| PyInt (z : Z)
| PyNone.

Arguments Member {E} e.
Arguments PyStr {E} s.
Arguments PyInt {E} z.
Arguments PyNone {E}.

(** [v == AssetType.x]: members of a plain [enum.Enum] are equal only to
    themselves. *)
Definition py_eq_member {E : Type} `{EqDecision E} (v : py_value E) (e : E) : bool :=
  match v with
  | Member e' => bool_decide (e' = e)
  | _ => false
  end.

(** [str(v)], as interpolated by an f-string. *)
Definition py_str {E : Type} (member_str : E -> string) (v : py_value E) : string :=
  match v with
  | Member e => member_str e
  | PyStr s => s
  | PyInt z => pretty z
  | PyNone => "None"
  end.

(** ** Python's float operations used by the feeder

    [unnormalized_timestamp / resolution] is true division of two Python
    integers: the exact quotient, rounded once to the nearest binary64 value
    (ties to even); [OverflowError] when the quotient is too large for a
    float, [ZeroDivisionError] for a zero divisor.  A Python integer is the
    float-free triple (sign, mantissa, exponent 0) of [SpecFloat], whatever
    its size, so that the division rounds the exact quotient. *)

Module PyFloat.

Definition prec : Z := 53.
Definition emax : Z := 1024.

Definition of_int (z : Z) : spec_float :=
  match z with
  | Z0 => S754_zero false
  | Zpos p => S754_finite false p 0
  | Zneg p => S754_finite true p 0
  end.

Definition int_true_divide (a b : Z) : result spec_float :=
  if b =? 0 then Raise (ZeroDivisionError "division by zero")
  else
    match SFdiv prec emax (of_int a) (of_int b) with
    | S754_infinity _ =>
        Raise (OverflowError "integer division result too large for a float")
    | q => Return q
    end.

(** [ceil_scaled n e] is the ceiling of [n * 2^e]. *)
Definition ceil_scaled (n e : Z) : Z :=
  if 0 <=? e then n * 2 ^ e else - ((- n) / 2 ^ (- e)).

(** [math.ceil] on a float. *)
Definition math_ceil (x : spec_float) : result Z :=
  match x with
  | S754_nan => Raise (ValueError "cannot convert float NaN to integer")
  | S754_infinity _ =>
      Raise (OverflowError "cannot convert float infinity to integer")
  | S754_zero _ => Return 0
  | S754_finite s m e => Return (ceil_scaled (cond_Zopp s (Zpos m)) e)
  end.

End PyFloat.

(** ** feed_bulk_from_db.py *)

Definition RESOLUTION : Z := 600.

Definition normalize_timestamp (unnormalized_timestamp resolution : Z) : result Z :=
  let! q := PyFloat.int_true_divide unnormalized_timestamp resolution in
  let! c := PyFloat.math_ceil q in
  Return (c * resolution).


Module FeedBulkFromDb.

(** A row of the [prices] table. *)
Module Row.
Record t : Type := {
  id : Z;
  updated_at : Z;
  source : Z;
  symbol : string;
  price : string;
  sell_asset : string;
  buy_asset : string;
  status : string;
  asset_type : string;
  added_to_blockchain : bool
}.

Definition set_added_to_blockchain (r : t) : t :=
  {| id := id r; updated_at := updated_at r; source := source r;
     symbol := symbol r; price := price r; sell_asset := sell_asset r;
     buy_asset := buy_asset r; status := status r;
     asset_type := asset_type r; added_to_blockchain := true |}.
End Row.

(** [dict(result)]: the seven selected columns, and the key
    [normalized_timestamp] once the loop has assigned it. *)
Module ResultDict.
Record t : Type := {
  id : Z;
  updated_at : Z;
  source : Z;
  symbol : string;
  price : string;
  sell_asset : string;
  buy_asset : string;
  normalized_timestamp : option Z
}.

Definition set_normalized_timestamp (d : t) (n : Z) : t :=
  {| id := id d; updated_at := updated_at d; source := source d;
     symbol := symbol d; price := price d; sell_asset := sell_asset d;
     buy_asset := buy_asset d; normalized_timestamp := Some n |}.
End ResultDict.

(** The dictionary handed to the CLI for one price. *)
Module ParsedPrice.
Record t : Type := {
  source : Z;
  asset_type : string;
  asset : string;
  price : string;
  timestamp : Z
}.
End ParsedPrice.

(** A row of the [feed_bulk_from_db_logs] table. *)
Record log_entry : Type := {
  command : string;
  output : string;
  success : bool
}.

Record database : Type := {
  prices : list Row.t;
  feed_bulk_from_db_logs : list log_entry
}.

(** What the script takes from outside: the two contract ids imported from
    [lightecho_stellar_oracle], [json.dumps], [base64.b64encode], and the
    CLI child process ([subprocess.check_output]: the captured output, on
    the left for exit status 0 and on the right for [CalledProcessError]). *)
Class FeederEnv : Type := {
  TESTNET_CONTRACT_XLM : string;
  TESTNET_CONTRACT_USD : string;
  json_dumps : list ParsedPrice.t -> string;
  b64encode : string -> string;
  check_output : string -> string + string
}.

Section Feeder.
Context `{env : FeederEnv}.

Definition run_cli (cmd : string) : bool * string :=
  match check_output ("./cli " +:+ cmd) with
  | inl out => (true, out)
  | inr out => (false, out)
  end.

Definition list_to_base64 (data_list : list ParsedPrice.t) : string :=
  b64encode (json_dumps data_list).

Definition log_result_to_db (cmd : string) (ok : bool) (out : string)
    (db : database) : database :=
  {| prices := prices db;
     feed_bulk_from_db_logs :=
       feed_bulk_from_db_logs db
         ++ [ {| command := cmd; output := out; success := ok |} ] |}.

(** [UPDATE prices SET added_to_blockchain = 1
     WHERE source = ? AND symbol IN (...)] *)
Definition mark_symbols_as_added_to_blockchain (source : Z)
    (symbols : list string) (db : database) : database :=
  {| prices :=
       (fun row : Row.t =>
          if bool_decide (Row.source row = source /\ Row.symbol row ∈ symbols)
          then Row.set_added_to_blockchain row else row) <$> prices db;
     feed_bulk_from_db_logs := feed_bulk_from_db_logs db |}.

Definition parsed_price (price : ResultDict.t) : result ParsedPrice.t :=
  match ResultDict.normalized_timestamp price with
  | Some n =>
      Return {| ParsedPrice.source := ResultDict.source price;
                ParsedPrice.asset_type := "other";
                ParsedPrice.asset := ResultDict.buy_asset price;
                ParsedPrice.price := ResultDict.price price;
                ParsedPrice.timestamp := n |}
  | None => Raise (KeyError "normalized_timestamp")
  end.

(** The [for price in prices] loop of [add_prices_to_blockchain]. *)
Fixpoint group_prices (prices : list ResultDict.t)
    (xlm_based_prices usd_based_prices : list ParsedPrice.t)
    (source_symbols : gmap Z (list string))
    : result (list ParsedPrice.t * list ParsedPrice.t * gmap Z (list string)) :=
  match prices with
  | [] => Return (xlm_based_prices, usd_based_prices, source_symbols)
  | price :: rest =>
      let! parsed := parsed_price price in
      let source_symbols :=
        <[ResultDict.source price :=
            default [] (source_symbols !! ResultDict.source price)
              ++ [ResultDict.symbol price]]> source_symbols in
      if decide (ResultDict.sell_asset price = "XLM") then
        group_prices rest (xlm_based_prices ++ [parsed]) usd_based_prices
          source_symbols
      else if decide (ResultDict.sell_asset price = "USD") then
        group_prices rest xlm_based_prices (usd_based_prices ++ [parsed])
          source_symbols
      else
        Raise (ValueError ("Unexpected price sell_asset: "
                             +:+ ResultDict.sell_asset price))
  end.

Definition submission_command (contract_id : string)
    (group : list ParsedPrice.t) : string :=
  "--oracle-contract-id " +:+ contract_id
    +:+ " oracle add_prices_base64 " +:+ list_to_base64 group.

(** One [if group:] block: run the CLI and log the attempt. *)
Definition submit_group (contract_id : string) (group : list ParsedPrice.t)
    (db : database) : database :=
  match group with
  | [] => db
  | _ :: _ =>
      let cmd := submission_command contract_id group in
      let '(ok, out) := run_cli cmd in
      log_result_to_db cmd ok out db
  end.

Definition add_prices_to_blockchain (prices : list ResultDict.t)
    (db : database) : result database :=
  let! groups := group_prices prices [] [] ∅ in
  let '(xlm_based_prices, usd_based_prices, source_symbols) := groups in
  let db := submit_group TESTNET_CONTRACT_XLM xlm_based_prices db in
  let db := submit_group TESTNET_CONTRACT_USD usd_based_prices db in
  Return (map_fold mark_symbols_as_added_to_blockchain db source_symbols).

(** The [WHERE] clause of the query of [read_prices_from_db]. *)
Definition selected (row : Row.t) : bool :=
  bool_decide (Row.status row = "active")
  && bool_decide (Row.asset_type row = "other")
  && negb (Row.added_to_blockchain row).

Definition to_dict (row : Row.t) : ResultDict.t :=
  {| ResultDict.id := Row.id row;
     ResultDict.updated_at := Row.updated_at row;
     ResultDict.source := Row.source row;
     ResultDict.symbol := Row.symbol row;
     ResultDict.price := Row.price row;
     ResultDict.sell_asset := Row.sell_asset row;
     ResultDict.buy_asset := Row.buy_asset row;
     ResultDict.normalized_timestamp := None |}.

(** [ORDER BY updated_at DESC]: a row goes before the rows that are not
    newer than it.  SQL leaves the order of rows of equal [updated_at] open;
    here they stay in table order (the sort is stable), and no statement
    below depends on that choice. *)
Definition newer_first (a b : Row.t) : Prop :=
  Row.updated_at b <= Row.updated_at a.

#[local] Instance newer_first_dec : RelDecision newer_first.
Proof. intros a b. unfold newer_first. apply _. Defined.

Fixpoint insert_newer_first (row : Row.t) (sorted : list Row.t) : list Row.t :=
  match sorted with
  | [] => [row]
  | other :: rest =>
      if decide (newer_first row other) then row :: other :: rest
      else other :: insert_newer_first row rest
  end.

Definition order_by_updated_at_desc (rows : list Row.t) : list Row.t :=
  foldr insert_newer_first [] rows.

(** The [SELECT ... WHERE ... ORDER BY updated_at DESC] of
    [read_prices_from_db], as [cursor.fetchall()] hands it over. *)
Definition fetchall (db : database) : list ResultDict.t :=
  to_dict <$> order_by_updated_at_desc (List.filter selected (prices db)).

(** One iteration of the [for result in cursor.fetchall()] loop;
    [now] is what [int(datetime.now().timestamp())] yields in it. *)
Definition read_row (prices : list ResultDict.t)
    (symbols : gmap Z (list string)) (now : Z) (result_dict : ResultDict.t)
    : result (list ResultDict.t * gmap Z (list string)) :=
  let symbols :=
    match symbols !! ResultDict.source result_dict with
    | None => <[ResultDict.source result_dict := []]> symbols
    | Some _ => symbols
    end in
  if bool_decide (ResultDict.symbol result_dict
                    ∈ symbols !!! ResultDict.source result_dict)
  then Return (prices, symbols)
  else
    let current_timestamp := now in
    let! normalized := normalize_timestamp current_timestamp RESOLUTION in
    let result_dict :=
      ResultDict.set_normalized_timestamp result_dict normalized in
    if normalized <=? current_timestamp then
      Return (prices ++ [result_dict],
              <[ResultDict.source result_dict :=
                  (symbols !!! ResultDict.source result_dict)
                    ++ [ResultDict.symbol result_dict]]> symbols)
    else Return (prices, symbols).

Fixpoint read_rows (rows : list (Z * ResultDict.t))
    (prices : list ResultDict.t) (symbols : gmap Z (list string))
    : result (list ResultDict.t * gmap Z (list string)) :=
  match rows with
  | [] => Return (prices, symbols)
  | (now, result_dict) :: rest =>
      let! st := read_row prices symbols now result_dict in
      read_rows rest st.1 st.2
  end.

(** The fetched rows, each with the wall-clock reading of its iteration:
    [clock i] is the time during iteration [i]. *)
Fixpoint timed (clock : nat -> Z) (i : nat) (rows : list ResultDict.t)
    : list (Z * ResultDict.t) :=
  match rows with
  | [] => []
  | row :: rest => (clock i, row) :: timed clock (S i) rest
  end.

(** The list [prices] at the end of the loop. *)
Definition collect_prices (clock : nat -> Z) (db : database)
    : result (list ResultDict.t) :=
  let! st := read_rows (timed clock 0 (fetchall db)) [] ∅ in
  Return st.1.

Definition read_prices_from_db (clock : nat -> Z) (db : database)
    : result database :=
  let! prices := collect_prices clock db in
  match prices with
  | [] => Return db
  | _ :: _ => add_prices_to_blockchain prices db
  end.

End Feeder.

End FeedBulkFromDb.

(** ** sep40/cli/cli.py *)

Module Sep40Cli.

Inductive AssetType : Type := stellar | other.

#[global] Instance AssetType_eq_dec : EqDecision AssetType.
Proof. solve_decision. Defined.

Definition AssetType_str (a : AssetType) : string :=
  match a with
  | stellar => "AssetType.stellar"
  | other => "AssetType.other"
  end.

Definition print_error (msg : string) : list event :=
  [Print (Fore_RED +:+ msg +:+ Style_RESET_ALL)].

Definition abort {A : Type} (msg : string) : cli A :=
  (print_error msg, Raise (TyperExit 1)).

(** The answer of [requests.post]: [json] is
    [json.dumps(resp.json(), indent=2)]. *)
Record response : Type := {
  status_code : Z;
  text : string;
  json : result string
}.

Definition perform_rpc_request (resp : response) : cli unit :=
  if 299 <? status_code resp then
    abort ("Failed to perform RPC request: status=" +:+ pretty (status_code resp)
             +:+ " response=" +:+ text resp)
  else
    match json resp with
    | Return body => emit [Print body]
    | Raise e => ([], Raise e)
    end.

(** [stellar_sdk.scval]. *)
Class ScvalSdk : Type := {
  SCVal : Type;
  to_enum : string -> SCVal -> SCVal;
  to_address : string -> result SCVal;
  to_symbol : string -> result SCVal
}.

(** What [build_asset_enum] can return: a contract value, or an exception
    instance (returned, not raised). *)
Inductive py_object `{ScvalSdk} : Type :=
| Value (v : SCVal)
| ExceptionInstance (e : exn).

Definition build_asset_enum `{ScvalSdk} (asset_type : py_value AssetType)
    (asset : string) : result py_object :=
  if py_eq_member asset_type stellar then
    let! a := to_address asset in Return (Value (to_enum "Stellar" a))
  else if py_eq_member asset_type other then
    let! a := to_symbol asset in Return (Value (to_enum "Other" a))
  else
    Return (ExceptionInstance
              (ValueError ("unexpected asset_type: "
                             +:+ py_str AssetType_str asset_type))).

End Sep40Cli.

(** ** sep40/examples/price_up_down/cli/cli.py *)

Module PriceUpDownCli.

Inductive AssetType : Type := stellar | other.

#[global] Instance AssetType_eq_dec : EqDecision AssetType.
Proof. solve_decision. Defined.

Definition AssetType_str (a : AssetType) : string :=
  match a with
  | stellar => "AssetType.stellar"
  | other => "AssetType.other"
  end.

(** The SDK's [GetTransactionStatus] and [SendTransactionStatus]. *)
Inductive GetTransactionStatus : Type := SUCCESS | NOT_FOUND | FAILED.

#[global] Instance GetTransactionStatus_eq_dec : EqDecision GetTransactionStatus.
Proof. solve_decision. Defined.

Inductive SendTransactionStatus : Type :=
| PENDING | DUPLICATE | TRY_AGAIN_LATER | ERROR.

#[global] Instance SendTransactionStatus_eq_dec : EqDecision SendTransactionStatus.
Proof. solve_decision. Defined.

(** Responses of the RPC server; [repr] is the text an f-string shows. *)
Record GetTransactionResponse : Type := {
  status : GetTransactionStatus;
  repr : string
}.

Record SendTransactionResponse : Type := {
  send_status : SendTransactionStatus;
  hash : string;
  send_repr : string
}.

Definition print_error (msg : string) : list event :=
  [Print (Fore_RED +:+ msg +:+ Style_RESET_ALL)].

(** [raise typer.Exit()]: the exit code defaults to 0. *)
Definition abort {A : Type} (msg : string) : cli A :=
  (print_error msg, Raise (TyperExit 0)).

Definition vprint (verbose : bool) (msg : string) : list event :=
  if verbose then [Print msg] else [].

(** [wait_tx]: [poll i] is the answer of the [i]-th call of
    [get_transaction]; the loop has no bound, so the model takes fuel and
    answers [None] when it runs out. *)
Fixpoint wait_tx (fuel : nat) (verbose : bool)
    (poll : nat -> GetTransactionResponse) (i : nat)
    : option (list event * GetTransactionResponse) :=
  match fuel with
  | O => None
  | S fuel' =>
      let waiting := vprint verbose "waiting for transaction to be confirmed..." in
      let get_transaction_data := poll i in
      if decide (status get_transaction_data <> NOT_FOUND) then
        Some (waiting, get_transaction_data)
      else
        match wait_tx fuel' verbose poll (S i) with
        | Some (evs, r) => Some (waiting ++ Sleep 3 :: evs, r)
        | None => None
        end
  end.

(** [send_tx]: [tx_xdr] and [prepared_xdr] are the texts of the transaction
    before and after [prepare_transaction], [send_transaction_data] is the
    answer of [send_transaction]. *)
Definition send_tx (fuel : nat) (verbose : bool) (tx_xdr prepared_xdr : string)
    (send_transaction_data : SendTransactionResponse)
    (poll : nat -> GetTransactionResponse)
    : option (cli (string * GetTransactionResponse)) :=
  let sent :=
    vprint verbose ("preparing transaction: " +:+ tx_xdr)
      ++ vprint verbose ("prepared transaction: " +:+ prepared_xdr)
      ++ vprint verbose ("sent transaction: " +:+ send_repr send_transaction_data) in
  if decide (send_status send_transaction_data <> PENDING) then
    Some (sent, Raise (RuntimeError ("Failed to send transaction: "
                                       +:+ send_repr send_transaction_data)))
  else
    let tx_hash := hash send_transaction_data in
    match wait_tx fuel verbose poll 0 with
    | Some (evs, tx_data) => Some (sent ++ evs, Return (tx_hash, tx_data))
    | None => None
    end.

Definition invoke_contract_function (fuel : nat) (verbose : bool)
    (tx_xdr prepared_xdr : string)
    (send_transaction_data : SendTransactionResponse)
    (poll : nat -> GetTransactionResponse)
    : option (cli (string * GetTransactionResponse)) :=
  match send_tx fuel verbose tx_xdr prepared_xdr send_transaction_data poll with
  | None => None
  | Some sent =>
      Some (run! r := sent in
            let '(tx_hash, tx_data) := r in
            run! _ := emit (vprint verbose ("transaction: " +:+ repr tx_data)) in
            if decide (status tx_data <> SUCCESS) then
              abort ("Error: " +:+ repr tx_data)
            else ([], Return (tx_hash, tx_data)))
  end.

(** [stellar_sdk.soroban.types]. *)
Class SorobanTypes : Type := {
  SorobanValue : Type;
  Enum : string -> SorobanValue -> SorobanValue;
  Address : string -> result SorobanValue;
  Symbol : string -> result SorobanValue
}.

Inductive py_object `{SorobanTypes} : Type :=
| Value (v : SorobanValue)
| ExceptionInstance (e : exn).

Definition build_asset_enum `{SorobanTypes} (asset_type : py_value AssetType)
    (asset : string) : result py_object :=
  if py_eq_member asset_type stellar then
    let! a := Address asset in Return (Value (Enum "Stellar" a))
  else if py_eq_member asset_type other then
    let! a := Symbol asset in Return (Value (Enum "Other" a))
  else
    Return (ExceptionInstance
              (ValueError ("unexpected asset_type: "
                             +:+ py_str AssetType_str asset_type))).

End PriceUpDownCli.

(** ** Auxiliary definitions of the proofs *)

(** The second half of [binary_round_aux]: renormalise the rounded mantissa
    and classify the result. *)
Definition round_finish (s : bool) (M e : Z) : spec_float :=
  let '(mrs'', e'') := shr_fexp PyFloat.prec PyFloat.emax M e loc_Exact in
  match shr_m mrs'' with
  | Z0 => S754_zero s
  | Z.pos m => if e'' <=? PyFloat.emax - PyFloat.prec then S754_finite s m e'' else S754_infinity s
  | Z.neg _ => S754_nan
  end.

(** [m * 2^e] is a nearest binary64 neighbour of [p / 600], in integers. *)
Definition nearest_600 (p m : positive) (e : Z) : Prop :=
  e < 0
  /\ Z.abs (600 * Z.pos m - Z.pos p * 2 ^ (- e)) <= 300
  /\ (300 < 2 ^ (- e) \/ Z.pos p mod 600 = 0).

(** Timestamps whose quotient by 600 the float division rounds without
    crossing an integer; every [datetime] timestamp (years 1 to 9999) lies
    inside.  Just above, at [600 * 2^44 + 1], the quotient rounds down to the
    float [2^44]. *)
Definition float_exact_range (t : Z) : Prop :=
  - (600 * 2 ^ 44) <= t <= 600 * 2 ^ 44.

(** [n] is the smallest multiple of [r] at or above [t], as the
    specification words it. *)
Definition aligned_ceiling (t r n : Z) : Prop :=
  n mod r = 0 /\ t <= n /\ n - t < r /\ (t mod r = 0 -> n = t).

(** *** The batch feeder *)

Module FeederSpec.
Import FeedBulkFromDb.

(** The (source, symbol) pair of a fetched row and of a table row. *)
Definition key (r : ResultDict.t) : Z * string :=
  (ResultDict.source r, ResultDict.symbol r).

Definition row_key (r : Row.t) : Z * string := (Row.source r, Row.symbol r).

(** A fetched row as appended by an iteration run at time [tr.1]. *)
Definition stamp (tr : Z * ResultDict.t) : ResultDict.t :=
  ResultDict.set_normalized_timestamp tr.2 tr.1.

Definition aligned (now : Z) : Prop := now mod RESOLUTION = 0.

#[global] Instance aligned_dec (now : Z) : Decision (aligned now).
Proof. unfold aligned. apply _. Defined.

(** Deduplication in the specification's words: of the rows that share a
    (source, symbol) pair only the first in input order stays. *)
Fixpoint keep_first (seen : list (Z * string)) (rows : list (Z * ResultDict.t))
    : list (Z * ResultDict.t) :=
  match rows with
  | [] => []
  | tr :: rest =>
      if decide (key tr.2 ∈ seen) then keep_first seen rest
      else tr :: keep_first (seen ++ [key tr.2]) rest
  end.

(** The dictionary [symbols] of the read loop records the kept pairs. *)
Definition symbols_track (symbols : gmap Z (list string))
    (prices : list ResultDict.t) : Prop :=
  forall src sym, sym ∈ symbols !!! src <-> (src, sym) ∈ key <$> prices.

Definition has_timestamp (price : ResultDict.t) : Prop :=
  is_Some (ResultDict.normalized_timestamp price).

Definition is_xlm (price : ResultDict.t) : Prop :=
  ResultDict.sell_asset price = "XLM".

Definition is_usd (price : ResultDict.t) : Prop :=
  ResultDict.sell_asset price = "USD".

Definition supported (price : ResultDict.t) : Prop := is_xlm price \/ is_usd price.

#[global] Instance has_timestamp_dec (price : ResultDict.t) :
  Decision (has_timestamp price).
Proof. unfold has_timestamp. apply _. Defined.

#[global] Instance supported_dec (price : ResultDict.t) : Decision (supported price).
Proof. unfold supported, is_xlm, is_usd. apply _. Defined.

(** The dictionary [source_symbols] after the grouping loop. *)
Definition record_symbols (prices : list ResultDict.t)
    (source_symbols : gmap Z (list string)) : gmap Z (list string) :=
  foldl (fun ss price =>
           <[ResultDict.source price :=
               default [] (ss !! ResultDict.source price)
                 ++ [ResultDict.symbol price]]> ss)
        source_symbols prices.

(** The [prices] table once every pair of [keys] has been marked. *)
Definition mark_keys (keys : list (Z * string)) (row : Row.t) : Row.t :=
  if bool_decide (row_key row ∈ keys) then Row.set_added_to_blockchain row else row.

(** The contract a settlement asset is submitted to. *)
Definition contract_for `{FeederEnv} (sell_asset : string) : string :=
  if decide (sell_asset = "XLM") then TESTNET_CONTRACT_XLM else TESTNET_CONTRACT_USD.

(** C2 as the specification states it: a pair newly marked by a run has a
    successful submission of its asset group in the log of that run. *)
Definition marked_only_after_success `{FeederEnv} (clock : nat -> Z)
    (db : database) : Prop :=
  forall db' i row row',
    read_prices_from_db clock db = Return db' ->
    prices db !! i = Some row -> prices db' !! i = Some row' ->
    Row.added_to_blockchain row = false ->
    Row.added_to_blockchain row' = true ->
    exists group out,
      {| command := submission_command (contract_for (Row.sell_asset row)) group;
         output := out; success := true |}
      ∈ drop (length (feed_bulk_from_db_logs db)) (feed_bulk_from_db_logs db').

(** C3 as the specification states it: the timestamp handed to submission
    is the row's own [updated_at], rounded up to the resolution. *)
Definition forwards_own_timestamp (clock : nat -> Z) (db : database) : Prop :=
  forall prices groups price parsed,
    collect_prices clock db = Return prices ->
    group_prices prices [] [] ∅ = Return groups ->
    price ∈ prices -> parsed_price price = Return parsed ->
    parsed ∈ groups.1.1 ++ groups.1.2 ->
    normalize_timestamp (ResultDict.updated_at price) RESOLUTION
    = Return (ParsedPrice.timestamp parsed).


End FeederSpec.

(** *** The command-line clients *)

(** The arguments of the [time.sleep] calls in a trace. *)
Definition sleeps (evs : list event) : list Z :=
  omap (fun ev => match ev with Sleep seconds => Some seconds | Print _ => None end) evs.

(** The exit status of a command of the example client, if it ends. *)
Definition exit_status {A : Type} (run : option (cli A)) : option Z :=
  (fun c : cli A => process_exit_code c.2) <$> run.

(** *** Concrete runs *)

Module Examples.
Import FeedBulkFromDb FeederSpec.

(** A CLI child that always exits with a non-zero status. *)
Definition failing_env : FeederEnv :=
  {| TESTNET_CONTRACT_XLM := "CXLM";
     TESTNET_CONTRACT_USD := "CUSD";
     json_dumps := fun _ => "[...]";
     b64encode := fun text => text;
     check_output := fun _ => inr "Error: transaction failed" |}.

Definition price_row (id updated_at : Z) (symbol sell_asset : string) : Row.t :=
  {| Row.id := id; Row.updated_at := updated_at; Row.source := 1;
     Row.symbol := symbol; Row.price := "1.00"; Row.sell_asset := sell_asset;
     Row.buy_asset := "BTC"; Row.status := "active"; Row.asset_type := "other";
     Row.added_to_blockchain := false |}.

(** One unsent XLM row, last updated at second 100. *)
Definition db_one : database :=
  {| prices := [price_row 1 100 "A" "XLM"]; feed_bulk_from_db_logs := [] |}.

(** Two unsent rows of the same (source, symbol) pair. *)
Definition db_twins : database :=
  {| prices := [price_row 1 200 "A" "XLM"; price_row 2 100 "A" "XLM"];
     feed_bulk_from_db_logs := [] |}.

(** A clock that stands at an aligned time, and one that ticks from 599. *)
Definition clock_1200 : nat -> Z := fun _ => 1200.
Definition clock_599 : nat -> Z := fun _ => 599.

Definition mixed_prices : list ResultDict.t :=
  [ stamp (1200, to_dict (price_row 1 100 "A" "XLM"));
    stamp (1200, to_dict (price_row 2 100 "B" "USD"));
    stamp (1200, to_dict (price_row 3 100 "C" "XLM")) ].

Definition euro_prices : list ResultDict.t :=
  [ stamp (1200, to_dict (price_row 1 100 "A" "XLM"));
    stamp (1200, to_dict (price_row 2 100 "B" "EUR")) ].

(** An SDK whose values are their printed form. *)
Definition text_scval : Sep40Cli.ScvalSdk :=
  {| Sep40Cli.SCVal := string;
     Sep40Cli.to_enum := fun tag v => tag +:+ "(" +:+ v +:+ ")";
     Sep40Cli.to_address := fun a => Return a;
     Sep40Cli.to_symbol := fun a => Return a |}.

Definition text_soroban : PriceUpDownCli.SorobanTypes :=
  {| PriceUpDownCli.SorobanValue := string;
     PriceUpDownCli.Enum := fun tag v => tag +:+ "(" +:+ v +:+ ")";
     PriceUpDownCli.Address := fun a => Return a;
     PriceUpDownCli.Symbol := fun a => Return a |}.

(** A transaction that was accepted for sending and then failed on chain. *)
Definition pending_send : PriceUpDownCli.SendTransactionResponse :=
  {| PriceUpDownCli.send_status := PriceUpDownCli.PENDING;
     PriceUpDownCli.hash := "abc";
     PriceUpDownCli.send_repr := "<pending>" |}.

Definition failed_poll : nat -> PriceUpDownCli.GetTransactionResponse :=
  fun _ => {| PriceUpDownCli.status := PriceUpDownCli.FAILED;
              PriceUpDownCli.repr := "<failed>" |}.

(** Not found twice, then success. *)
Definition third_poll : nat -> PriceUpDownCli.GetTransactionResponse :=
  fun i => if (i <? 2)%nat
           then {| PriceUpDownCli.status := PriceUpDownCli.NOT_FOUND;
                   PriceUpDownCli.repr := "<not found>" |}
           else {| PriceUpDownCli.status := PriceUpDownCli.SUCCESS;
                   PriceUpDownCli.repr := "<success>" |}.

Definition server_error : Sep40Cli.response :=
  {| Sep40Cli.status_code := 500; Sep40Cli.text := "oops";
     Sep40Cli.json := Return "{}" |}.

(** The hex text of a 32-byte wasm id, and a creation transaction that is
    built and accepted for such an id only: for any other id the builder
    raises [ValueError] (the text of its message is not modelled). *)
Definition wasm_id_32 : string :=
  "00112233445566778899aabbccddeeff00112233445566778899aabbccddeeff".

Definition create_for_32_bytes (wasm_id : string)
    : result PriceUpDownCli.SendTransactionResponse :=
  if decide (String.length wasm_id = 64%nat) then Return pending_send
  else Raise (ValueError "wasm id is not 32 bytes").

End Examples.

(** ** The rest of the two clients

    Exceptions that [exn] does not list, and commands that can end in them. *)

Inductive py_error : Type :=
| Known (e : exn)
| AssertionError (msg : string)
| AttributeError (msg : string).

Inductive attempt (A : Type) : Type :=
| Done (a : A)
| Failed (e : py_error).

Arguments Done {A} a.
Arguments Failed {A} e.

Definition run (A : Type) : Type := (list event * attempt A)%type.

Definition of_result {A : Type} (r : result A) : attempt A :=
  match r with
  | Return a => Done a
  | Raise e => Failed (Known e)
  end.

Definition lift_cli {A : Type} (c : cli A) : run A := (c.1, of_result c.2).

Definition run_bind {A B : Type} (c : run A) (k : A -> run B) : run B :=
  match c with
  | (evs, Done a) => let '(evs', r) := k a in (evs ++ evs', r)
  | (evs, Failed e) => (evs, Failed e)
  end.

Notation "'step!' x ':=' c 'in' k" := (run_bind c (fun x => k))
  (at level 10, x name, c at level 100, k at level 200) : py_scope.

(** Exit status: as [process_exit_code], with 1 for the further exceptions. *)
Definition attempt_exit_code {A : Type} (a : attempt A) : Z :=
  match a with
  | Done _ => 0
  | Failed (Known e) => process_exit_code (@Raise unit e)
  | Failed _ => 1
  end.

(** Python truthiness of an optional string ([None] and [""] are false). *)
Definition truthy (s : option string) : bool :=
  match s with
  | None => false
  | Some text => negb (bool_decide (text = ""))
  end.

(** *** price_up_down: decoding and printing contract results *)

Module PriceUpDownOutput.
Import PriceUpDownCli.

#[local] Set Warnings "-register-all".

(** The contract value [SCVal]: one arm of the XDR union is set.  A symbol
    is kept as its decoded text, an address as the text [str] gives, and
    [SCV_OTHER] stands for the arms the client does not name, with the text
    of [result.type]. *)
Inductive sc_val : Type :=
| SCV_BOOL (b : bool)
| SCV_VOID
| SCV_U32 (uint32 : Z)
| SCV_I32 (int32 : Z)
| SCV_U64 (uint64 : Z)
| SCV_I64 (int64 : Z)
| SCV_U128 (hi lo : Z)
| SCV_I128 (hi lo : Z)
| SCV_SYMBOL (sc_symbol : string)
| SCV_ADDRESS (address : string)
| SCV_VEC (sc_vec : list sc_val)
| SCV_MAP (sc_map : list (sc_val * sc_val))
| SCV_OTHER (type_text : string).

(** The Python values the parsers build; a [dict] keeps insertion order. *)
Inductive py_data : Type :=
| PInt (z : Z)
| PStr (s : string)
| PList (l : list py_data)
| PDict (d : list (string * py_data)).

(** [data[key] = value] on an insertion-ordered dictionary. *)
Fixpoint dict_set {A : Type} (key : string) (value : A) (data : list (string * A))
    : list (string * A) :=
  match data with
  | [] => [(key, value)]
  | (k, v) :: rest =>
      if decide (k = key) then (key, value) :: rest
      else (k, v) :: dict_set key value rest
  end.

Fixpoint dict_get {A : Type} (key : string) (data : list (string * A)) : option A :=
  match data with
  | [] => None
  | (k, v) :: rest => if decide (k = key) then Some v else dict_get key rest
  end.

Definition could_not_parse : py_error := Known (ValueError "Could not parse sc_val").

Definition no_symbol : py_error :=
  AttributeError "'NoneType' object has no attribute 'sc_symbol'".

(** [parse_sc_val], with the loops of [parse_sc_vec] and [parse_sc_map]
    inside, as they call one another. *)
Fixpoint parse_sc_val (v : sc_val) : attempt py_data :=
  match v with
  | SCV_U32 n => Done (PInt n)
  | SCV_I32 n => Done (PInt n)
  | SCV_U64 n => Done (PInt n)
  | SCV_I64 n => Done (PInt n)
  | SCV_U128 high low => Done (PInt (Z.lor (Z.shiftl high 64) low))
  | SCV_I128 high low => Done (PInt (Z.lor (Z.shiftl high 64) low))
  | SCV_MAP entries =>
      (fix loop (entries : list (sc_val * sc_val)) (data : list (string * py_data))
         : attempt py_data :=
         match entries with
         | [] => Done (PDict data)
         | (SCV_SYMBOL key, val) :: rest =>
             match parse_sc_val val with
             | Done value => loop rest (dict_set key value data)
             | Failed e => Failed e
             end
         | _ :: _ => Failed no_symbol
         end) entries []
  | SCV_VEC vals =>
      (fix loop (vals : list sc_val) (vec : list py_data) : attempt py_data :=
         match vals with
         | [] => Done (PList vec)
         | val :: rest =>
             match parse_sc_val val with
             | Done value => loop rest (vec ++ [value])
             | Failed e => Failed e
             end
         end) vals []
  | SCV_SYMBOL sym => Done (PStr sym)
  | SCV_BOOL _ | SCV_VOID | SCV_ADDRESS _ | SCV_OTHER _ => Failed could_not_parse
  end.

(** The loop of [parse_sc_vec], from the list [vec] built so far. *)
Fixpoint parse_sc_vec_from (vals : list sc_val) (vec : list py_data)
    : attempt (list py_data) :=
  match vals with
  | [] => Done vec
  | val :: rest =>
      match parse_sc_val val with
      | Done value => parse_sc_vec_from rest (vec ++ [value])
      | Failed e => Failed e
      end
  end.

Definition parse_sc_vec (sc_vec : list sc_val) : attempt (list py_data) :=
  parse_sc_vec_from sc_vec [].

(** The loop of [parse_sc_map], from the dictionary [data] built so far. *)
Fixpoint parse_sc_map_from (entries : list (sc_val * sc_val))
    (data : list (string * py_data)) : attempt (list (string * py_data)) :=
  match entries with
  | [] => Done data
  | (SCV_SYMBOL key, val) :: rest =>
      match parse_sc_val val with
      | Done value => parse_sc_map_from rest (dict_set key value data)
      | Failed e => Failed e
      end
  | _ :: _ => Failed no_symbol
  end.

Definition parse_sc_map (sc_map : list (sc_val * sc_val))
    : attempt (list (string * py_data)) :=
  parse_sc_map_from sc_map [].

Definition of_dict (a : attempt (list (string * py_data))) : attempt py_data :=
  match a with
  | Done data => Done (PDict data)
  | Failed e => Failed e
  end.

Definition of_list (a : attempt (list py_data)) : attempt py_data :=
  match a with
  | Done vec => Done (PList vec)
  | Failed e => Failed e
  end.

Definition is_tx_success (tx_data : GetTransactionResponse) : bool :=
  bool_decide (status tx_data = SUCCESS).

(** [parse_tx_result]: [meta] is the decoded [result_meta_xdr], [None] when
    the field is [None]; inside, [None] when [soroban_meta] is missing. *)
Definition parse_tx_result (meta : option (option sc_val)) : attempt sc_val :=
  match meta with
  | None => Failed (AssertionError "")
  | Some None => Failed (AssertionError "")
  | Some (Some return_value) => Done return_value
  end.

(** Python's [str] on the parsed values. *)
Class Rendering : Type := {
  str_data : py_data -> string
}.

Definition str_bool (b : bool) : string := if b then "True" else "False".

Definition print_value `{Rendering} (v : attempt py_data) : run unit :=
  match v with
  | Done value => ([Print (str_data value)], Done tt)
  | Failed e => ([], Failed e)
  end.

Definition output_tx_data `{Rendering} (verbose : bool)
    (tx_data : GetTransactionResponse) (meta : option (option sc_val)) : run unit :=
  step! _ := (vprint verbose ("transaction: " +:+ repr tx_data), Done tt) in
  if is_tx_success tx_data then
    step! result := ([], parse_tx_result meta) in
    match result with
    | SCV_BOOL b => ([Print (str_bool b)], Done tt)
    | SCV_VOID => ([Print "<void>"], Done tt)
    | SCV_MAP sc_map => print_value (of_dict (parse_sc_map sc_map))
    | SCV_U32 _ | SCV_I32 _ | SCV_U64 _ | SCV_I64 _ | SCV_U128 _ _ | SCV_I128 _ _
    | SCV_SYMBOL _ => print_value (parse_sc_val result)
    | SCV_ADDRESS address => ([Print address], Done tt)
    | SCV_VEC vec => print_value (of_list (parse_sc_vec vec))
    | SCV_OTHER type_text =>
        ([Print ("Unexpected result type: " +:+ type_text)], Done tt)
    end
  else lift_cli (abort ("Error: " +:+ repr tx_data)).

Definition horizon_url : string := "https://horizon-futurenet.stellar.org".

Definition invoke_and_output `{Rendering} (fuel : nat) (verbose : bool)
    (tx_xdr prepared_xdr : string)
    (send_transaction_data : SendTransactionResponse)
    (poll : nat -> GetTransactionResponse) (meta : option (option sc_val))
    : option (run unit) :=
  match invoke_contract_function fuel verbose tx_xdr prepared_xdr
          send_transaction_data poll with
  | None => None
  | Some invoked =>
      Some (step! r := lift_cli invoked in
            let '(tx_hash, tx_data) := r in
            step! _ := ([Print "Output:"], Done tt) in
            step! _ := output_tx_data verbose tx_data meta in
            ([Print "Horizon tx:";
              Print (horizon_url +:+ "/transactions/" +:+ tx_hash);
              Print "";
              Print "Success!"], Done tt))
  end.

(** [deploy].  The calls of the SDK are the world's part:
    - [upload_tx] is what building, preparing, signing and sending the upload
      transaction yields, the answer of [send_transaction] or the exception
      one of these calls raises;
    - [create_tx wasm_id] is the same for the creation transaction, from
      [load_account] to [send_transaction]; [append_create_contract_op]
      raises [ValueError] there for an id that is not 32 bytes;
    - [upload_meta] and [create_meta] are what the decoding of the two
      settled answers yields: [None] when there is no [result_meta_xdr],
      else the hex text of the wasm id and the contract id, or the exception
      of the decoding. *)
Definition deploy (fuel : nat) (verbose : bool)
    (upload_tx : result SendTransactionResponse)
    (upload_poll : nat -> GetTransactionResponse)
    (upload_meta : option (attempt string))
    (create_tx : string -> result SendTransactionResponse)
    (create_poll : nat -> GetTransactionResponse)
    (create_meta : option (attempt string))
    : option (run unit) :=
  match upload_tx with
  | Raise e => Some ([], Failed (Known e))
  | Return upload_send =>
      match wait_tx fuel verbose upload_poll 0 with
      | None => None
      | Some (waited, uploaded) =>
          let evs :=
            vprint verbose ("sent transaction: " +:+ send_repr upload_send)
              ++ waited ++ vprint verbose ("transaction: " +:+ repr uploaded) in
          let upload : run (option string) :=
            if decide (status uploaded = SUCCESS) then
              match upload_meta with
              | None => (evs, Failed (AssertionError ""))
              | Some (Failed e) => (evs, Failed e)
              | Some (Done wasm_id) =>
                  (evs ++ vprint verbose ("wasm id: " +:+ wasm_id), Done (Some wasm_id))
              end
            else (evs, Done None) in
          match upload with
          | (evs, Failed e) => Some (evs, Failed e)
          | (evs, Done None) =>
              Some (evs, Failed (AssertionError "wasm id should not be empty"))
          | (evs, Done (Some wasm_id)) =>
              if truthy (Some wasm_id) then
                let evs := evs ++ vprint verbose "creating contract..." in
                match create_tx wasm_id with
                | Raise e => Some (evs, Failed (Known e))
                | Return create_send =>
                    match wait_tx fuel verbose create_poll 0 with
                    | None => None
                    | Some (waited', created) =>
                        let evs' :=
                          evs ++ vprint verbose ("sent transaction: "
                                                   +:+ send_repr create_send)
                            ++ waited'
                            ++ vprint verbose ("transaction: " +:+ repr created) in
                        if decide (status created = SUCCESS) then
                          match create_meta with
                          | None => Some (evs', Failed (AssertionError ""))
                          | Some (Failed e) => Some (evs', Failed e)
                          | Some (Done contract_id) =>
                              Some (evs' ++ vprint verbose ("contract id: " +:+ contract_id)
                                      ++ [Print contract_id], Done tt)
                          end
                        else Some (evs', Done tt)
                    end
                end
              else Some (evs, Failed (AssertionError "wasm id should not be empty"))
          end
      end
  end.

End PriceUpDownOutput.

(** The value of the last entry of a contract map under the symbol [key]. *)
Fixpoint last_entry (key : string)
    (entries : list (PriceUpDownOutput.sc_val * PriceUpDownOutput.sc_val))
    : option PriceUpDownOutput.sc_val :=
  match entries with
  | [] => None
  | (k, val) :: rest =>
      match last_entry key rest with
      | Some later => Some later
      | None =>
          match k with
          | PriceUpDownOutput.SCV_SYMBOL sym =>
              if decide (sym = key) then Some val else None
          | _ => None
          end
      end
  end.

(** *** sep40: the add_price command *)

Module Sep40Commands.
Import Sep40Cli.

(** What a command does to the outside: a printed line or an HTTP GET. *)
Inductive effect : Type :=
| Printed (line : string)
| HttpGet (url : string).

Definition AssetType_name (a : AssetType) : string :=
  match a with
  | stellar => "stellar"
  | other => "other"
  end.

(** [print_contract_output]; [tx_data] is the text [print] shows for it. *)
Definition print_contract_output (horizon_url tx_hash tx_data : string)
    : list effect :=
  [Printed "Output:"; Printed tx_data; Printed "Horizon tx:";
   Printed (horizon_url +:+ "/transactions/" +:+ tx_hash);
   Printed ""; Printed "Success!"].

(** [oracle_add_price]: [add_prices] is the call of the admin client,
    [http_get] is [requests.get], [heartbeat_url] the configured
    [ADD_PRICES_SUCCESS_HEARTBEAT_URL]. *)
Definition oracle_add_price
    (add_prices : list FeedBulkFromDb.ParsedPrice.t -> result (string * string))
    (http_get : string -> result unit)
    (horizon_url : string) (heartbeat_url : option string)
    (source : Z) (asset_type : AssetType) (asset price : string) (timestamp : Z)
    : list effect * result unit :=
  let prices :=
    [ {| FeedBulkFromDb.ParsedPrice.source := source;
         FeedBulkFromDb.ParsedPrice.asset_type := AssetType_name asset_type;
         FeedBulkFromDb.ParsedPrice.asset := asset;
         FeedBulkFromDb.ParsedPrice.price := price;
         FeedBulkFromDb.ParsedPrice.timestamp := timestamp |} ] in
  match add_prices prices with
  | Raise e => ([], Raise e)
  | Return (tx_hash, tx_data) =>
      let printed := print_contract_output horizon_url tx_hash tx_data in
      match heartbeat_url with
      | Some url =>
          if truthy heartbeat_url then
            match http_get url with
            | Return _ => (printed ++ [HttpGet url], Return tt)
            | Raise e => (printed ++ [HttpGet url], Raise e)
            end
          else
            (printed ++ [Printed (Fore_RED +:+ "No ADD_PRICES_SUCCESS_HEARTBEAT_URL set"
                                    +:+ Style_RESET_ALL)], Return tt)
      | None =>
          (printed ++ [Printed (Fore_RED +:+ "No ADD_PRICES_SUCCESS_HEARTBEAT_URL set"
                                  +:+ Style_RESET_ALL)], Return tt)
      end
  end.

End Sep40Commands.

(** *** Further notions of the feeder proofs *)

Module FeederMore.
Import FeedBulkFromDb FeederSpec.

(** The log entries one [if group:] block appends. *)
Definition attempt_log `{FeederEnv} (contract_id : string)
    (group : list ParsedPrice.t) : list log_entry :=
  match group with
  | [] => []
  | _ :: _ =>
      [ {| command := submission_command contract_id group;
           output := (run_cli (submission_command contract_id group)).2;
           success := (run_cli (submission_command contract_id group)).1 |} ]
  end.

(** A table row after a run: untouched, or with the flag set. *)
Definition same_or_marked (before after : Row.t) : Prop :=
  after = before \/ after = Row.set_added_to_blockchain before.

(** The symbols of the rows of one source, in input order. *)
Definition symbols_of (src : Z) (prices : list ResultDict.t) : list string :=
  ResultDict.symbol <$> filter (fun price => ResultDict.source price = src) prices.

End FeederMore.

(** * Proofs *)

(** ** Float division by the resolution *)

Lemma digits2_pos_bounds (p : positive) :
  2 ^ (Z.pos (digits2_pos p) - 1) <= Z.pos p < 2 ^ Z.pos (digits2_pos p).
Proof.
  induction p as [p IH | p IH | ]; cbn [digits2_pos].
  - rewrite Pos2Z.inj_succ. change (Z.pos p~1) with (2 * Z.pos p + 1).
    replace (Z.succ (Z.pos (digits2_pos p)) - 1) with (Z.succ (Z.pos (digits2_pos p) - 1)) by lia.
    rewrite !Z.pow_succ_r by lia. lia.
  - rewrite Pos2Z.inj_succ. change (Z.pos p~0) with (2 * Z.pos p).
    replace (Z.succ (Z.pos (digits2_pos p)) - 1) with (Z.succ (Z.pos (digits2_pos p) - 1)) by lia.
    rewrite !Z.pow_succ_r by lia. lia.
  - cbn. lia.
Qed.

Lemma digits2_pos_unique (p : positive) (d : Z) :
  2 ^ (d - 1) <= Z.pos p < 2 ^ d -> Z.pos (digits2_pos p) = d.
Proof.
  intros [Hlo Hhi].
  pose proof (digits2_pos_bounds p) as [Blo Bhi].
  destruct (Z.lt_trichotomy (Z.pos (digits2_pos p)) d) as [Hlt | [Heq | Hgt]].
  - assert (2 ^ Z.pos (digits2_pos p) <= 2 ^ (d - 1)) by (apply Z.pow_le_mono_r; lia). lia.
  - exact Heq.
  - assert (0 <= d \/ d < 0) as [Hd | Hd] by lia.
    + assert (2 ^ d <= 2 ^ (Z.pos (digits2_pos p) - 1)) by (apply Z.pow_le_mono_r; lia). lia.
    + rewrite (Z.pow_neg_r 2 d) in Hhi by lia. lia.
Qed.

Lemma fexp_normal (x : Z) : -1021 <= x -> fexp PyFloat.prec PyFloat.emax x = x - 53.
Proof. intros H. unfold fexp, emin, PyFloat.prec, PyFloat.emax. lia. Qed.

Lemma div_core_600 (p : positive) :
  Z.pos p < 2 ^ 54 ->
  exists q r k,
    SFdiv_core_binary PyFloat.prec PyFloat.emax (Z.pos p) 0 600 0 = (q, - k, new_location 600 r)
    /\ 9 <= k <= 62
    /\ Z.pos p * 2 ^ k = 600 * q + r
    /\ 0 <= r < 600
    /\ 2 ^ 62 <= Z.pos p * 2 ^ k < 2 ^ 63.
Proof.
  intros Hp.
  pose proof (digits2_pos_bounds p) as [Blo Bhi].
  set (d := Z.pos (digits2_pos p)) in *.
  assert (Hd : 1 <= d <= 54).
  { split; [subst d; lia |].
    destruct (Z_le_gt_dec d 54) as [|Hgt]; [assumption|].
    assert (2 ^ 54 <= 2 ^ (d - 1)) by (apply Z.pow_le_mono_r; lia). lia. }
  unfold SFdiv_core_binary.
  change (Zdigits2 (Z.pos p)) with d.
  change (Zdigits2 600) with 10.
  replace (d + 0 - (10 + 0)) with (d - 10) by lia.
  rewrite fexp_normal by lia.
  replace (Z.min (d - 10 - 53) (0 - 0)) with (- (63 - d)) by lia.
  replace (0 - 0 - - (63 - d)) with (63 - d) by lia.
  destruct (63 - d) as [| k | k] eqn:Ek; try lia.
  rewrite Z.shiftl_mul_pow2 by lia.
  pose proof (Z_div_mod (Z.pos p * 2 ^ Z.pos k) 600 eq_refl) as Hdm.
  destruct (Z.div_eucl (Z.pos p * 2 ^ Z.pos k) 600) as [q r].
  destruct Hdm as [Heq Hr].
  exists q, r, (Z.pos k). split; [reflexivity|].
  split; [lia|]. split; [exact Heq|]. split; [exact Hr|].
  assert (E1 : 2 ^ (d - 1) * 2 ^ Z.pos k = 2 ^ 62).
  { rewrite <- Z.pow_add_r by lia. f_equal. lia. }
  assert (E2 : 2 ^ d * 2 ^ Z.pos k = 2 ^ 63).
  { rewrite <- Z.pow_add_r by lia. f_equal. lia. }
  assert (0 < 2 ^ Z.pos k) by (apply Z.pow_pos_nonneg; lia).
  nia.
Qed.


Lemma binary_round_aux_split (s : bool) (mx ex : Z) (lx : location) :
  binary_round_aux PyFloat.prec PyFloat.emax s mx ex lx =
  round_finish s
    (round_nearest_even (shr_m (fst (shr_fexp PyFloat.prec PyFloat.emax mx ex lx)))
                        (loc_of_shr_record (fst (shr_fexp PyFloat.prec PyFloat.emax mx ex lx))))
    (snd (shr_fexp PyFloat.prec PyFloat.emax mx ex lx)).
Proof.
  unfold binary_round_aux, round_finish.
  destruct (shr_fexp PyFloat.prec PyFloat.emax mx ex lx) as [mrs' e']. reflexivity.
Qed.

Lemma Zdigits2_unique (m d : Z) :
  0 < d -> 2 ^ (d - 1) <= m < 2 ^ d -> Zdigits2 m = d.
Proof.
  intros Hd Hm.
  assert (0 < 2 ^ (d - 1)) by (apply Z.pow_pos_nonneg; lia).
  destruct m as [| p | p]; try lia.
  cbn [Zdigits2]. now apply digits2_pos_unique.
Qed.

Lemma shr_fexp_53 (m e : Z) (l : location) :
  2 ^ 52 <= m < 2 ^ 53 -> -1074 <= e ->
  shr_fexp PyFloat.prec PyFloat.emax m e l = (shr_record_of_loc m l, e).
Proof.
  intros Hm He. unfold shr_fexp.
  rewrite (Zdigits2_unique m 53) by (cbn; lia).
  rewrite fexp_normal by lia.
  replace (53 + e - 53 - e) with 0 by lia. reflexivity.
Qed.

Lemma shr_fexp_54 (m e : Z) (l : location) :
  2 ^ 53 <= m < 2 ^ 54 -> -1074 <= e ->
  shr_fexp PyFloat.prec PyFloat.emax m e l = (shr_1 (shr_record_of_loc m l), e + 1).
Proof.
  intros Hm He. unfold shr_fexp.
  rewrite (Zdigits2_unique m 54) by (cbn; lia).
  rewrite fexp_normal by lia.
  replace (54 + e - 53 - e) with 1 by lia. reflexivity.
Qed.

Lemma shr_record_of_loc_m (m : Z) (l : location) :
  shr_m (shr_record_of_loc m l) = m.
Proof. destruct l as [| []]; reflexivity. Qed.

Lemma loc_of_shr_record_of_loc (m : Z) (l : location) :
  loc_of_shr_record (shr_record_of_loc m l) = l.
Proof. destruct l as [| []]; reflexivity. Qed.

Lemma round_finish_53 (s : bool) (M e : Z) :
  2 ^ 52 <= M <= 2 ^ 53 -> -1074 <= e <= 900 ->
  exists m i,
    round_finish s M e = S754_finite s m (e + i)
    /\ ((i = 0 /\ Z.pos m = M) \/ (i = 1 /\ M = 2 ^ 53 /\ Z.pos m = 2 ^ 52)).
Proof.
  intros HM He. unfold round_finish.
  destruct (Z.eq_dec M (2 ^ 53)) as [-> | Hne].
  - rewrite shr_fexp_54 by lia.
    change (shr_m (shr_1 (shr_record_of_loc (2 ^ 53) loc_Exact))) with (2 ^ 52).
    change (2 ^ 52) with (Z.pos (2 ^ 52)%positive) at 1.
    cbv iota beta.
    replace (e + 1 <=? PyFloat.emax - PyFloat.prec) with true
      by (symmetry; apply Z.leb_le; unfold PyFloat.emax, PyFloat.prec; lia).
    exists (2 ^ 52)%positive, 1. split; [reflexivity|]. right. repeat split.
  - rewrite shr_fexp_53 by lia.
    rewrite shr_record_of_loc_m.
    destruct M as [| m | m]; try lia.
    replace (e <=? PyFloat.emax - PyFloat.prec) with true
      by (symmetry; apply Z.leb_le; unfold PyFloat.emax, PyFloat.prec; lia).
    exists m, 0. rewrite Z.add_0_r. split; [reflexivity|]. left. split; reflexivity.
Qed.

Lemma new_location_600 (r : Z) :
  0 <= r < 600 ->
     (r = 0 /\ new_location 600 r = loc_Exact)
  \/ (0 < 2 * r < 600 /\ new_location 600 r = loc_Inexact Lt)
  \/ (2 * r = 600 /\ new_location 600 r = loc_Inexact Eq)
  \/ (600 < 2 * r /\ new_location 600 r = loc_Inexact Gt).
Proof.
  intros Hr. change (new_location 600 r) with (new_location_even 600 r).
  unfold new_location_even.
  destruct (Z.eqb_spec r 0) as [-> | Hne]; [left; split; reflexivity|].
  right. destruct (Z.compare_spec (2 * r) 600) as [E | L | G].
  - right; left; split; [exact E | reflexivity].
  - left; split; [lia | reflexivity].
  - right; right; split; [lia | reflexivity].
Qed.

Lemma round_aux_600 (s : bool) (q r k : Z) :
  2 ^ 62 <= 600 * q + r < 2 ^ 63 -> 0 <= r < 600 -> 9 <= k <= 62 ->
  exists m j,
    binary_round_aux PyFloat.prec PyFloat.emax s q (- k) (new_location 600 r) = S754_finite s m (j - k)
    /\ (j = 0 \/ (j = 1 /\ 600 * 2 ^ 53 - 300 <= 600 * q + r))
    /\ 2 * Z.abs (600 * Z.pos m * 2 ^ j - (600 * q + r)) <= 600 * 2 ^ j.
Proof.
  intros HN Hr Hk.
  assert (Hq : 2 ^ 52 <= q < 2 ^ 54) by lia.
  rewrite binary_round_aux_split.
  destruct (Z_lt_ge_dec q (2 ^ 53)) as [Hlt | Hge].
  - (* the quotient has 53 digits *)
    rewrite shr_fexp_53 by lia. cbn [fst snd].
    rewrite shr_record_of_loc_m, loc_of_shr_record_of_loc.
    set (M := round_nearest_even q (new_location 600 r)).
    assert (HM : (M = q /\ 2 * r <= 600) \/ (M = q + 1 /\ 600 <= 2 * r)).
    { subst M. destruct (new_location_600 r Hr) as [[H1 ->] | [[H1 ->] | [[H1 ->] | [H1 ->]]]];
        cbn [round_nearest_even]; try (left; split; [reflexivity | lia]);
        try (right; split; [reflexivity | lia]).
      destruct (Z.even q); [left | right]; split; try reflexivity; lia. }
    destruct (round_finish_53 s M (- k)) as (m & i & Hfin & Hi); [lia | lia |].
    exists m, i. rewrite Hfin. split; [f_equal; lia|].
    destruct Hi as [[-> Hm] | (-> & HM53 & Hm)]; rewrite Hm.
    + split; [left; reflexivity|]. change (2 ^ 0) with 1. lia.
    + split; [right; split; [reflexivity | lia]|]. change (2 ^ 1) with 2. lia.
  - (* the quotient has 54 digits: one bit is shifted out *)
    rewrite shr_fexp_54 by lia. cbn [fst snd].
    destruct q as [| qp | qp]; try lia.
    set (M := round_nearest_even
                (shr_m (shr_1 (shr_record_of_loc (Z.pos qp) (new_location 600 r))))
                (loc_of_shr_record (shr_1 (shr_record_of_loc (Z.pos qp) (new_location 600 r))))).
    assert (HM : 2 * Z.abs (600 * M * 2 - (600 * Z.pos qp + r)) <= 600 * 2
                 /\ 2 * M <= Z.pos qp + 2 /\ Z.pos qp <= 2 * M + 1).
    { subst M.
      destruct (new_location_600 r Hr) as [[H1 ->] | [[H1 ->] | [[H1 ->] | [H1 ->]]]];
        destruct qp as [h | h |]; try lia;
        cbn [shr_record_of_loc shr_1 orb shr_m loc_of_shr_record round_nearest_even];
        try (destruct (Z.even (Z.pos h)));
        try change (Z.pos h~1) with (2 * Z.pos h + 1);
        try change (Z.pos h~0) with (2 * Z.pos h); lia. }
    destruct HM as (Hnear & Hup & Hlo).
    destruct (round_finish_53 s M (- k + 1)) as (m & i & Hfin & Hi); [lia | lia |].
    exists m, 1. rewrite Hfin.
    destruct Hi as [[-> Hm] | (-> & HM53 & Hm)]; [| lia].
    split; [f_equal; lia|]. rewrite Hm. change (2 ^ 1) with 2.
    split; [right; split; [reflexivity | lia] | lia].
Qed.


Lemma SFdiv_600 (s : bool) (p : positive) :
  Z.pos p <= 600 * 2 ^ 44 ->
  exists m e,
    SFdiv PyFloat.prec PyFloat.emax (S754_finite s p 0) (S754_finite false 600 0) = S754_finite s m e
    /\ nearest_600 p m e.
Proof.
  intros Hp. unfold SFdiv.
  destruct (div_core_600 p) as (q & r & k & Hcore & Hk & HN & Hr & Hrange); [lia|].
  rewrite Hcore. cbv iota beta. rewrite xorb_false_r.
  destruct (round_aux_600 s q r k) as (m & j & Hres & Hj & Hnear); [lia | lia | lia |].
  exists m, (j - k). split; [exact Hres|].
  rewrite <- HN in Hnear, Hj.
  assert (H512 : forall x, 9 <= x -> 300 < 2 ^ x).
  { intros x Hx. assert (2 ^ 9 <= 2 ^ x) by (apply Z.pow_le_mono_r; lia). lia. }
  unfold nearest_600. replace (- (j - k)) with (k - j) by lia.
  destruct Hj as [-> | [-> Hbig]].
  - rewrite Z.sub_0_r. change (2 ^ 0) with 1 in Hnear.
    split; [lia|]. split; [lia|]. left. apply H512. lia.
  - change (2 ^ 1) with 2 in Hnear.
    assert (E : 2 ^ k = 2 * 2 ^ (k - 1)).
    { rewrite <- Z.pow_succ_r by lia. f_equal. lia. }
    rewrite E in Hnear, Hbig.
    split; [lia|]. split; [lia|].
    destruct (Z.eq_dec k 9) as [-> | Hk9].
    + right. change (2 ^ (9 - 1)) with 256 in Hbig.
      replace (Z.pos p) with (600 * 2 ^ 44) by lia. reflexivity.
    + left. apply H512. lia.
Qed.


Lemma ceil_nearest_600 (s : bool) (p m : positive) (e : Z) :
  nearest_600 p m e ->
  PyFloat.ceil_scaled (cond_Zopp s (Z.pos m)) e = - ((- cond_Zopp s (Z.pos p)) / 600).
Proof.
  intros (He & Hnear & Hbig). unfold PyFloat.ceil_scaled.
  destruct (Z.leb_spec 0 e) as [|_]; [lia|].
  set (P := 2 ^ (- e)) in *.
  assert (HP : 0 < P) by (apply Z.pow_pos_nonneg; lia).
  f_equal.
  set (n := - cond_Zopp s (Z.pos p)).
  set (x := - cond_Zopp s (Z.pos m)).
  assert (Hx : Z.abs (600 * x - n * P) <= 300).
  { subst x n. destruct s; cbn [cond_Zopp]; lia. }
  assert (Hn : 300 < P \/ n mod 600 = 0).
  { destruct Hbig as [|Hdiv]; [left; assumption | right].
    subst n. destruct s; cbn [cond_Zopp].
    - rewrite Z.opp_involutive. exact Hdiv.
    - apply Z.mod_opp_l_z; [lia | exact Hdiv]. }
  clearbody n x. clear Hnear Hbig.
  pose proof (Z.div_mod n 600 ltac:(lia)) as Hdm.
  pose proof (Z.mod_pos_bound n 600 ltac:(lia)) as Hmod.
  generalize dependent (n mod 600). generalize dependent (n / 600).
  intros c rho Hn Hdm Hmod.
  symmetry. apply Z.div_unique with (r := x - c * P).
  - left.
    assert (Hprod : 600 * (x - c * P) = rho * P + (600 * x - n * P)).
    { rewrite Hdm. ring. }
    destruct Hn as [Hbig | Hz].
    + destruct (Z.eq_dec rho 0) as [Hz | Hnz].
      * rewrite Hz in Hprod. lia.
      * assert (P <= rho * P) by nia. assert (rho * P <= 599 * P) by nia. lia.
    + rewrite Hz in Hprod. lia.
  - lia.
Qed.

(** ** normalize_timestamp *)

Example normalize_timestamp_one : normalize_timestamp 1 600 = Return 600.
Proof. vm_compute. reflexivity. Qed.

Example normalize_timestamp_on_boundary : normalize_timestamp 1200 600 = Return 1200.
Proof. vm_compute. reflexivity. Qed.

Example normalize_timestamp_recent :
  normalize_timestamp 1700000001 600 = Return 1700000400.
Proof. vm_compute. reflexivity. Qed.

Example normalize_timestamp_negative : normalize_timestamp (-1) 600 = Return 0.
Proof. vm_compute. reflexivity. Qed.

Example normalize_timestamp_zero_resolution :
  normalize_timestamp 5 0 = Raise (ZeroDivisionError "division by zero").
Proof. vm_compute. reflexivity. Qed.

(** Inside the exact range the float detour computes the integer ceiling. *)
Lemma normalize_timestamp_600 (t : Z) :
  float_exact_range t ->
  normalize_timestamp t RESOLUTION = Return (- ((- t) / 600) * 600).
Proof.
  intros [Hlo Hhi].
  unfold normalize_timestamp, RESOLUTION, PyFloat.int_true_divide.
  change (600 =? 0) with false. cbv iota.
  change (PyFloat.of_int 600) with (S754_finite false 600 0).
  destruct t as [| p | p]; cbn [PyFloat.of_int].
  - reflexivity.
  - destruct (SFdiv_600 false p) as (m & e & -> & Hnear); [lia|].
    cbn [bind PyFloat.math_ceil].
    rewrite (ceil_nearest_600 false p m e Hnear). reflexivity.
  - destruct (SFdiv_600 true p) as (m & e & -> & Hnear); [lia|].
    cbn [bind PyFloat.math_ceil].
    rewrite (ceil_nearest_600 true p m e Hnear). reflexivity.
Qed.

Lemma ceiling_600_spec (t : Z) :
  let n := - ((- t) / 600) * 600 in
  n mod 600 = 0 /\ t <= n /\ n - t < 600 /\ (t mod 600 = 0 <-> n <= t).
Proof.
  intros n. subst n.
  pose proof (Z.div_mod (- t) 600 ltac:(lia)) as Hdm.
  pose proof (Z.mod_pos_bound (- t) 600 ltac:(lia)) as Hb.
  split; [apply Z.mod_mul; lia|].
  split; [lia|]. split; [lia|].
  split.
  - intros Ht. assert (Hz : (- t) mod 600 = 0) by (apply Z.mod_opp_l_z; lia). lia.
  - intros Hle. assert (Ht : - t = 600 * ((- t) / 600)) by lia.
    replace t with ((- ((- t) / 600)) * 600) by lia. apply Z.mod_mul. lia.
Qed.

(** In range, the test [normalized <= current] of the read loop holds exactly
    at the multiples of the resolution, where the timestamp is unchanged. *)
Lemma normalize_timestamp_gate (t : Z) :
  float_exact_range t ->
  exists n, normalize_timestamp t RESOLUTION = Return n
            /\ ((n <=? t) = true <-> t mod 600 = 0)
            /\ (t mod 600 = 0 -> n = t).
Proof.
  intros Ht. exists (- ((- t) / 600) * 600).
  split; [now apply normalize_timestamp_600|].
  destruct (ceiling_600_spec t) as (_ & Hge & _ & Hiff). cbv zeta in Hiff, Hge.
  rewrite Z.leb_le. split; [symmetry; exact Hiff|].
  intros Hmod. apply Hiff in Hmod. lia.
Qed.

(** C1, as amended: for every integer raw timestamp [t] between
    [-600 * 2^44] and [600 * 2^44] and the resolution 600,
    [normalize_timestamp] returns the smallest multiple of 600 that is at
    least [t]: the result is a multiple of 600, it is at least [t], it
    exceeds [t] by less than 600, no multiple of 600 at or above [t] is
    smaller, and an aligned [t] is returned unchanged. *)
Theorem normalize_timestamp_smallest_multiple (t : Z) :
  float_exact_range t ->
  exists n,
    normalize_timestamp t RESOLUTION = Return n
    /\ aligned_ceiling t RESOLUTION n
    /\ (forall m, m mod RESOLUTION = 0 -> t <= m -> n <= m).
Proof.
  intros Ht. exists (- ((- t) / 600) * 600).
  split; [now apply normalize_timestamp_600|].
  destruct (ceiling_600_spec t) as (Hmod & Hge & Hlt & Hiff).
  cbv zeta in Hmod, Hge, Hlt, Hiff. unfold aligned_ceiling, RESOLUTION.
  split.
  - repeat split; try assumption. intros Hal. apply Hiff in Hal. lia.
  - intros m Hm Htm.
    apply Z.mod_divide in Hm; [| lia]. destruct Hm as [k ->].
    assert (- ((- t) / 600) <= k); [| lia].
    pose proof (Z.div_mod (- t) 600 ltac:(lia)) as Hdm.
    pose proof (Z.mod_pos_bound (- t) 600 ltac:(lia)) as Hb. lia.
Qed.

Lemma normalize_timestamp_smallest_multiple_witness :
  float_exact_range 1700000001
  /\ exists n,
       normalize_timestamp 1700000001 RESOLUTION = Return n
       /\ aligned_ceiling 1700000001 RESOLUTION n
       /\ (forall m, m mod RESOLUTION = 0 -> 1700000001 <= m -> n <= m).
Proof.
  assert (H : float_exact_range 1700000001) by (unfold float_exact_range; lia).
  split; [exact H | exact (normalize_timestamp_smallest_multiple 1700000001 H)].
Defined.

(** C1, as stated, fails beyond the exact range: the quotient of
    [600 * 2^44 + 1] by 600 rounds down to the float [2^44], and the result
    lies below the raw timestamp. *)
Lemma normalize_timestamp_below_raw :
  ~ (exists n, normalize_timestamp (600 * 2 ^ 44 + 1) RESOLUTION = Return n
               /\ aligned_ceiling (600 * 2 ^ 44 + 1) RESOLUTION n).
Proof.
  intros (n & Hn & _ & Hge & _).
  vm_compute in Hn. injection Hn as <-. vm_compute in Hge. apply Hge. reflexivity.
Qed.

(** ** The batch feeder: grouping, submission and marking *)

Import FeedBulkFromDb FeederSpec.

Section FeederProofs.
Context `{env : FeederEnv}.

Lemma record_symbols_cons (price : ResultDict.t) (rest : list ResultDict.t)
    (ss : gmap Z (list string)) :
  record_symbols (price :: rest) ss
  = record_symbols rest
      (<[ResultDict.source price :=
           default [] (ss !! ResultDict.source price)
             ++ [ResultDict.symbol price]]> ss).
Proof. reflexivity. Qed.

Lemma parsed_price_has_timestamp (price : ResultDict.t) :
  has_timestamp price -> exists parsed, parsed_price price = Return parsed.
Proof.
  intros [n Hn]. unfold parsed_price. rewrite Hn. eexists. reflexivity.
Qed.

Lemma parsed_price_timestamp (price : ResultDict.t) (parsed : ParsedPrice.t) :
  parsed_price price = Return parsed ->
  ResultDict.normalized_timestamp price = Some (ParsedPrice.timestamp parsed)
  /\ ParsedPrice.source parsed = ResultDict.source price
  /\ ParsedPrice.asset parsed = ResultDict.buy_asset price
  /\ ParsedPrice.price parsed = ResultDict.price price
  /\ ParsedPrice.asset_type parsed = "other".
Proof.
  unfold parsed_price.
  destruct (ResultDict.normalized_timestamp price) as [n|]; [|discriminate].
  intros [= <-]. repeat split.
Qed.

(** The grouping loop on supported rows: each accumulator grows by the parsed
    rows of its settlement asset, in input order. *)
Lemma group_prices_supported (prices : list ResultDict.t) :
  Forall has_timestamp prices -> Forall supported prices ->
  forall xlm usd ss,
  exists xlm' usd',
    group_prices prices xlm usd ss
      = Return (xlm ++ xlm', usd ++ usd', record_symbols prices ss)
    /\ Forall2 (fun price parsed => parsed_price price = Return parsed)
               (filter is_xlm prices) xlm'
    /\ Forall2 (fun price parsed => parsed_price price = Return parsed)
               (filter is_usd prices) usd'.
Proof.
  induction prices as [| price rest IH]; intros Hts Hsup xlm usd ss.
  - exists [], []. rewrite !app_nil_r. repeat split; constructor.
  - apply Forall_cons in Hts as [Hprice Hts]. apply Forall_cons in Hsup as [Hs Hsup].
    destruct (parsed_price_has_timestamp price Hprice) as [parsed Hparsed].
    rewrite record_symbols_cons.
    cbn [group_prices]. rewrite Hparsed. cbn [bind].
    destruct (decide (ResultDict.sell_asset price = "XLM")) as [Hx | Hx].
    + destruct (IH Hts Hsup (xlm ++ [parsed]) usd
                  (<[ResultDict.source price :=
                       default [] (ss !! ResultDict.source price)
                         ++ [ResultDict.symbol price]]> ss))
        as (xlm' & usd' & Heq & Hxlm & Husd).
      exists (parsed :: xlm'), usd'. rewrite Heq, <- app_assoc.
      split; [reflexivity|]. split.
      * rewrite filter_cons_True by exact Hx. constructor; assumption.
      * rewrite filter_cons_False; [assumption|].
        unfold is_usd. rewrite Hx. discriminate.
    + destruct (decide (ResultDict.sell_asset price = "USD")) as [Hu | Hu].
      * destruct (IH Hts Hsup xlm (usd ++ [parsed])
                    (<[ResultDict.source price :=
                         default [] (ss !! ResultDict.source price)
                           ++ [ResultDict.symbol price]]> ss))
          as (xlm' & usd' & Heq & Hxlm & Husd).
        exists xlm', (parsed :: usd'). rewrite Heq, <- app_assoc.
        split; [reflexivity|]. split.
        -- rewrite filter_cons_False by exact Hx. assumption.
        -- rewrite filter_cons_True by exact Hu. constructor; assumption.
      * destruct Hs as [Hs | Hs]; contradiction.
Qed.

(** The grouping loop stops at the first row of another settlement asset. *)
Lemma group_prices_unsupported (before : list ResultDict.t) (bad : ResultDict.t)
    (after : list ResultDict.t) :
  Forall has_timestamp before -> Forall supported before ->
  has_timestamp bad -> ~ supported bad ->
  forall xlm usd ss,
    group_prices (before ++ bad :: after) xlm usd ss
    = Raise (ValueError ("Unexpected price sell_asset: "
                           +:+ ResultDict.sell_asset bad)).
Proof.
  induction before as [| price rest IH]; intros Hts Hsup Hbad Hns xlm usd ss.
  - destruct (parsed_price_has_timestamp bad Hbad) as [parsed Hparsed].
    cbn [app group_prices]. rewrite Hparsed. cbn [bind].
    destruct (decide (ResultDict.sell_asset bad = "XLM")) as [Hx | Hx];
      [exfalso; apply Hns; left; exact Hx|].
    destruct (decide (ResultDict.sell_asset bad = "USD")) as [Hu | Hu];
      [exfalso; apply Hns; right; exact Hu|].
    reflexivity.
  - apply Forall_cons in Hts as [Hprice Hts]. apply Forall_cons in Hsup as [Hs Hsup].
    destruct (parsed_price_has_timestamp price Hprice) as [parsed Hparsed].
    cbn [app group_prices]. rewrite Hparsed. cbn [bind].
    destruct (decide (ResultDict.sell_asset price = "XLM")) as [Hx | Hx];
      [now apply IH|].
    destruct (decide (ResultDict.sell_asset price = "USD")) as [Hu | Hu];
      [now apply IH|].
    destruct Hs as [Hs | Hs]; contradiction.
Qed.

Lemma first_unsupported (prices : list ResultDict.t) :
  Exists (fun price => ~ supported price) prices ->
  exists before bad after,
    prices = before ++ bad :: after /\ Forall supported before /\ ~ supported bad.
Proof.
  induction prices as [| price rest IH]; intros Hex.
  - inversion Hex.
  - destruct (decide (supported price)) as [Hs | Hs].
    + apply Exists_cons in Hex as [Hex | Hex]; [contradiction|].
      destruct (IH Hex) as (before & bad & after & -> & Hb & Hbad).
      exists (price :: before), bad, after. repeat split; [constructor|]; assumption.
    + exists [], price, rest. repeat split; [constructor | assumption].
Qed.

(** Membership in [source_symbols] after the loop. *)
Lemma record_symbols_elem (prices : list ResultDict.t) (ss : gmap Z (list string))
    (src : Z) (sym : string) :
  sym ∈ default [] (record_symbols prices ss !! src)
  <-> sym ∈ default [] (ss !! src) \/ (src, sym) ∈ key <$> prices.
Proof.
  revert ss. induction prices as [| price rest IH]; intros ss.
  - cbn. rewrite elem_of_nil. tauto.
  - rewrite record_symbols_cons, IH, fmap_cons, elem_of_cons. unfold key at 2.
    destruct (decide (ResultDict.source price = src)) as [<- | Hne].
    + rewrite lookup_insert_eq. cbn [from_option id].
      rewrite elem_of_app, list_elem_of_singleton.
      split.
      * intros [[H | ->] | H]; auto.
      * intros [H | [[= ->] | H]]; auto.
    + rewrite lookup_insert_ne by exact Hne.
      split.
      * intros [H | H]; auto.
      * intros [H | [[= E _] | H]]; auto. congruence.
Qed.

(** Marking every entry of [source_symbols] marks exactly the rows whose
    symbol is listed under their source; the log is not touched. *)
Lemma mark_all_spec (ss : gmap Z (list string)) (db : database) :
  prices (map_fold mark_symbols_as_added_to_blockchain db ss)
  = (fun row : Row.t =>
       if bool_decide (Row.symbol row ∈ default [] (ss !! Row.source row))
       then Row.set_added_to_blockchain row else row) <$> prices db
  /\ feed_bulk_from_db_logs (map_fold mark_symbols_as_added_to_blockchain db ss)
     = feed_bulk_from_db_logs db.
Proof.
  refine (map_fold_weak_ind
            (fun (r : database) (m : gmap Z (list string)) =>
               prices r
               = (fun row : Row.t =>
                    if bool_decide (Row.symbol row ∈ default [] (m !! Row.source row))
                    then Row.set_added_to_blockchain row else row) <$> prices db
               /\ feed_bulk_from_db_logs r = feed_bulk_from_db_logs db)
            mark_symbols_as_added_to_blockchain db _ _ ss).
  - split; [| reflexivity].
    rewrite <- (list_fmap_id (prices db)) at 1. apply list_fmap_ext.
    intros i row _. rewrite lookup_empty. cbn [from_option id].
    rewrite bool_decide_eq_false_2; [reflexivity | apply not_elem_of_nil].
  - intros source symbols m r Hnone [Hp Hl]. split; [| exact Hl].
    cbn [mark_symbols_as_added_to_blockchain prices]. rewrite Hp, <- list_fmap_compose.
    apply list_fmap_ext. intros i row _. cbn [compose].
    destruct (decide (Row.source row = source)) as [Hs | Hs].
    + rewrite Hs, Hnone, lookup_insert_eq. cbn [from_option id].
      rewrite (bool_decide_eq_false_2 (Row.symbol row ∈ [])) by apply not_elem_of_nil.
      rewrite Hs.
      destruct (decide (Row.symbol row ∈ symbols)) as [Hin | Hin].
      * rewrite !bool_decide_eq_true_2; [reflexivity | assumption | split; [reflexivity | assumption]].
      * rewrite !bool_decide_eq_false_2; [reflexivity | assumption | tauto].
    + rewrite lookup_insert_ne by congruence.
      destruct (bool_decide (Row.symbol row ∈ default [] (m !! Row.source row))).
      * cbn [Row.set_added_to_blockchain Row.source Row.symbol].
        rewrite bool_decide_eq_false_2; [reflexivity | tauto].
      * rewrite bool_decide_eq_false_2; [reflexivity | tauto].
Qed.

Lemma submit_group_prices (contract_id : string) (group : list ParsedPrice.t)
    (db : database) :
  prices (submit_group contract_id group db) = prices db.
Proof.
  unfold submit_group. destruct group; [reflexivity|].
  destruct (run_cli _). reflexivity.
Qed.

(** The effect of [add_prices_to_blockchain] on the [prices] table, for
    supported rows: the pairs of all forwarded rows are marked, whatever the
    two submissions reported. *)
Lemma add_prices_to_blockchain_marks (prices_in : list ResultDict.t) (db : database) :
  Forall has_timestamp prices_in -> Forall supported prices_in ->
  exists db',
    add_prices_to_blockchain prices_in db = Return db'
    /\ prices db' = mark_keys (key <$> prices_in) <$> prices db.
Proof.
  intros Hts Hsup. unfold add_prices_to_blockchain.
  destruct (group_prices_supported prices_in Hts Hsup [] [] ∅)
    as (xlm & usd & -> & _ & _).
  cbn [bind app]. eexists. split; [reflexivity|].
  destruct (mark_all_spec (record_symbols prices_in ∅)
              (submit_group TESTNET_CONTRACT_USD usd
                 (submit_group TESTNET_CONTRACT_XLM xlm db))) as [-> _].
  rewrite !submit_group_prices. apply list_fmap_ext. intros i row _.
  unfold mark_keys, row_key.
  apply (f_equal (fun b : bool => if b then Row.set_added_to_blockchain row else row)).
  apply bool_decide_ext. rewrite record_symbols_elem, lookup_empty. cbn [from_option id].
  rewrite elem_of_nil. tauto.
Qed.

(** *** The read loop *)

Lemma stamp_key (tr : Z * ResultDict.t) : key (stamp tr) = key tr.2.
Proof. reflexivity. Qed.

Lemma symbols_track_empty : symbols_track ∅ [].
Proof.
  intros src sym. rewrite lookup_total_empty. cbn.
  split; intros H; inversion H.
Qed.

(** One iteration: a row whose pair is already recorded is skipped without
    looking at the clock; otherwise it is appended, and recorded, exactly
    when the clock reading is a multiple of the resolution. *)
Lemma read_row_spec (prices : list ResultDict.t) (symbols : gmap Z (list string))
    (now : Z) (r : ResultDict.t) :
  float_exact_range now -> symbols_track symbols prices ->
  exists symbols',
    read_row prices symbols now r
    = Return (prices ++ (if decide (key r ∈ key <$> prices) then []
                         else if decide (aligned now) then [stamp (now, r)]
                         else []),
              symbols')
    /\ symbols_track symbols'
         (prices ++ (if decide (key r ∈ key <$> prices) then []
                     else if decide (aligned now) then [stamp (now, r)]
                     else [])).
Proof.
  intros Hnow Htrack. unfold read_row.
  set (symbols1 := match symbols !! ResultDict.source r with
                   | Some _ => symbols
                   | None => <[ResultDict.source r := []]> symbols
                   end).
  assert (Hsame : forall k, symbols1 !!! k = symbols !!! k).
  { intros k. subst symbols1.
    destruct (symbols !! ResultDict.source r) as [l|] eqn:Hl; [reflexivity|].
    destruct (decide (ResultDict.source r = k)) as [<- | Hne].
    - rewrite lookup_total_insert_eq, lookup_total_alt, Hl. reflexivity.
    - rewrite lookup_total_insert_ne by exact Hne. reflexivity. }
  assert (Htrack1 : symbols_track symbols1 prices).
  { intros src sym. rewrite Hsame. apply Htrack. }
  clearbody symbols1.
  destruct (decide (key r ∈ key <$> prices)) as [Hin | Hnin].
  - rewrite bool_decide_eq_true_2 by (apply Htrack1; exact Hin).
    rewrite app_nil_r. exists symbols1. split; [reflexivity | exact Htrack1].
  - rewrite bool_decide_eq_false_2 by (intros H; apply Hnin, Htrack1, H).
    destruct (normalize_timestamp_gate now Hnow) as (n & -> & Hgate & Hsame_t).
    cbn [bind].
    destruct (decide (aligned now)) as [Hal | Hal].
    + rewrite (Hsame_t Hal).
      replace (now <=? now) with true by (symmetry; apply Z.leb_refl).
      eexists. split; [reflexivity|].
      intros src sym. cbn [ResultDict.set_normalized_timestamp ResultDict.source
                             ResultDict.symbol].
      rewrite fmap_app, elem_of_app. cbn [fmap list_fmap].
      rewrite list_elem_of_singleton, stamp_key. unfold key at 2. cbn [snd].
      pose proof (Htrack1 src sym) as [T1 T2].
      destruct (decide (ResultDict.source r = src)) as [<- | Hne].
      * rewrite lookup_total_insert_eq, elem_of_app, list_elem_of_singleton.
        split.
        -- intros [H | ->]; auto.
        -- intros [H | [= ->]]; auto.
      * rewrite lookup_total_insert_ne by exact Hne. split.
        -- intros H; auto.
        -- intros [H | [= E _]]; [auto | congruence].
    + destruct (n <=? now) eqn:Hle.
      * exfalso. apply Hal. apply Hgate. reflexivity.
      * rewrite app_nil_r. exists symbols1. split; [reflexivity | exact Htrack1].
Qed.

(** The whole loop keeps, of the rows read at an aligned time, the first of
    each pair, in input order. *)
Lemma read_rows_spec (rows : list (Z * ResultDict.t)) :
  Forall (fun tr => float_exact_range tr.1) rows ->
  forall prices symbols,
    symbols_track symbols prices ->
    exists symbols',
      read_rows rows prices symbols
      = Return (prices ++ (stamp <$> keep_first (key <$> prices)
                                       (filter (fun tr => aligned tr.1) rows)),
                symbols').
Proof.
  induction rows as [| [now r] rest IH]; intros Hrange prices symbols Htrack.
  - exists symbols. cbn. rewrite app_nil_r. reflexivity.
  - apply Forall_cons in Hrange as [Hnow Hrange]. cbn [fst] in Hnow.
    destruct (read_row_spec prices symbols now r Hnow Htrack)
      as (symbols1 & Hrow & Htrack1).
    cbn [read_rows]. rewrite Hrow. cbn [bind fst snd].
    destruct (IH Hrange _ _ Htrack1) as (symbols' & ->).
    exists symbols'. f_equal. f_equal.
    destruct (decide (aligned now)) as [Hal | Hal].
    + rewrite filter_cons_True by exact Hal. cbn [keep_first snd].
      destruct (decide (key r ∈ key <$> prices)) as [Hin | Hnin].
      * rewrite app_nil_r. reflexivity.
      * rewrite <- app_assoc, fmap_app. reflexivity.
    + rewrite filter_cons_False by exact Hal.
      destruct (decide (key r ∈ key <$> prices)); rewrite app_nil_r; reflexivity.
Qed.

Lemma elem_of_timed (clock : nat -> Z) (rows : list ResultDict.t) (k : nat)
    (now : Z) (r : ResultDict.t) :
  (now, r) ∈ timed clock k rows
  <-> exists i, rows !! i = Some r /\ now = clock (k + i)%nat.
Proof.
  revert k. induction rows as [| row rest IH]; intros k.
  - cbn. split; [intros H; inversion H | intros (i & H & _); destruct i; discriminate].
  - cbn [timed]. rewrite elem_of_cons, IH. split.
    + intros [[= -> ->] | (i & Hi & ->)].
      * exists 0%nat. split; [reflexivity | f_equal; lia].
      * exists (S i). split; [exact Hi | f_equal; lia].
    + intros ([| i] & Hi & ->).
      * left. cbn in Hi. injection Hi as ->. repeat f_equal. lia.
      * right. exists i. split; [exact Hi | f_equal; lia].
Qed.

Lemma timed_in_range (clock : nat -> Z) (rows : list ResultDict.t) (k : nat) :
  (forall i, float_exact_range (clock i)) ->
  Forall (fun tr => float_exact_range tr.1) (timed clock k rows).
Proof.
  intros Hclock. revert k. induction rows as [| row rest IH]; intros k; cbn [timed].
  - constructor.
  - constructor; [apply Hclock | apply IH].
Qed.

Lemma keep_first_subset (rows : list (Z * ResultDict.t)) (seen : list (Z * string))
    (tr : Z * ResultDict.t) :
  tr ∈ keep_first seen rows -> tr ∈ rows /\ key tr.2 ∉ seen.
Proof.
  revert seen. induction rows as [| x rest IH]; intros seen; cbn [keep_first].
  - intros H; inversion H.
  - destruct (decide (key x.2 ∈ seen)) as [Hin | Hnin].
    + intros H. apply IH in H as [H1 H2]. split; [right; exact H1 | exact H2].
    + rewrite elem_of_cons. intros [-> | H].
      * split; [left | exact Hnin].
      * apply IH in H as [H1 H2]. split; [right; exact H1|].
        intros Hs. apply H2. apply elem_of_app. left. exact Hs.
Qed.


(** The list [prices] at the end of the loop, for any database and clock. *)
Lemma collect_prices_spec (clock : nat -> Z) (db : database) :
  (forall i, float_exact_range (clock i)) ->
  collect_prices clock db
  = Return (stamp <$> keep_first []
                        (filter (fun tr => aligned tr.1)
                                (timed clock 0 (fetchall db)))).
Proof.
  intros Hclock. unfold collect_prices.
  destruct (read_rows_spec (timed clock 0 (fetchall db))
              (timed_in_range clock (fetchall db) 0 Hclock)
              [] ∅ symbols_track_empty) as (symbols' & ->).
  reflexivity.
Qed.

End FeederProofs.

(** ** The batch feeder: the statements of the specification *)

Section FeederStatements.
Context `{env : FeederEnv}.

Lemma supported_partition (prices : list ResultDict.t) :
  Forall supported prices ->
  filter is_xlm prices ++ filter is_usd prices ≡ₚ prices.
Proof.
  induction prices as [| price rest IH]; intros Hsup; [reflexivity|].
  apply Forall_cons in Hsup as [Hs Hsup]. specialize (IH Hsup).
  destruct (decide (is_xlm price)) as [Hx | Hx].
  - rewrite filter_cons_True by exact Hx.
    rewrite filter_cons_False by (unfold is_usd; rewrite Hx; discriminate).
    cbn. constructor. exact IH.
  - destruct Hs as [Hs | Hu]; [contradiction|].
    rewrite filter_cons_False by exact Hx.
    rewrite filter_cons_True by exact Hu.
    rewrite <- Permutation_middle. constructor. exact IH.
Qed.

(** C6: for every input list whose rows all have sell_asset "XLM" or "USD",
    the grouping loop returns two groups, the parsed rows of the XLM rows
    and the parsed rows of the USD rows, each in input order; no row is in
    both, and together the two lists of rows are the input. *)
Theorem grouping_partitions_by_sell_asset (prices_in : list ResultDict.t) :
  Forall has_timestamp prices_in -> Forall supported prices_in ->
  exists xlm usd source_symbols,
    group_prices prices_in [] [] ∅ = Return (xlm, usd, source_symbols)
    /\ Forall2 (fun price parsed => parsed_price price = Return parsed)
               (filter is_xlm prices_in) xlm
    /\ Forall2 (fun price parsed => parsed_price price = Return parsed)
               (filter is_usd prices_in) usd
    /\ sublist (filter is_xlm prices_in) prices_in
    /\ sublist (filter is_usd prices_in) prices_in
    /\ (forall price, price ∈ filter is_xlm prices_in ->
                      price ∉ filter is_usd prices_in)
    /\ filter is_xlm prices_in ++ filter is_usd prices_in ≡ₚ prices_in.
Proof.
  intros Hts Hsup.
  destruct (group_prices_supported prices_in Hts Hsup [] [] ∅)
    as (xlm & usd & Heq & Hxlm & Husd).
  exists xlm, usd, (record_symbols prices_in ∅).
  split; [exact Heq|]. split; [exact Hxlm|]. split; [exact Husd|].
  split; [apply sublist_filter|]. split; [apply sublist_filter|].
  split; [| now apply supported_partition].
  intros price Hx Hu.
  apply list_elem_of_filter in Hx as [Hx _]. apply list_elem_of_filter in Hu as [Hu _].
  unfold is_xlm in Hx. unfold is_usd in Hu. rewrite Hx in Hu. discriminate.
Qed.

(** C7: for every input list with at least one row whose sell_asset is
    neither "XLM" nor "USD", [add_prices_to_blockchain] raises the
    unexpected-sell-asset [ValueError] naming such a row's sell_asset; the
    row is not dropped, and nothing is submitted or marked. *)
Theorem unsupported_sell_asset_raises (prices_in : list ResultDict.t)
    (db : database) :
  Forall has_timestamp prices_in ->
  Exists (fun price => ~ supported price) prices_in ->
  exists bad,
    bad ∈ prices_in /\ ~ supported bad
    /\ add_prices_to_blockchain prices_in db
       = Raise (ValueError ("Unexpected price sell_asset: "
                              +:+ ResultDict.sell_asset bad)).
Proof.
  intros Hts Hex.
  destruct (first_unsupported prices_in Hex) as (before & bad & after & -> & Hb & Hbad).
  exists bad. split; [apply elem_of_app; right; left|]. split; [exact Hbad|].
  apply Forall_app in Hts as [Hts1 Hts2]. apply Forall_cons in Hts2 as [Hts2 _].
  unfold add_prices_to_blockchain.
  rewrite (group_prices_unsupported before bad after Hts1 Hb Hts2 Hbad). reflexivity.
Qed.

Lemma collect_prices_kept (clock : nat -> Z) (db : database) :
  (forall i, float_exact_range (clock i)) ->
  exists kept,
    collect_prices clock db = Return kept
    /\ forall price, price ∈ kept ->
         exists i row,
           fetchall db !! i = Some row
           /\ price = ResultDict.set_normalized_timestamp row (clock i)
           /\ aligned (clock i).
Proof.
  intros Hclock. eexists. split; [now apply collect_prices_spec|].
  intros price Hin. apply list_elem_of_fmap in Hin as ([now r] & -> & Hin).
  apply keep_first_subset in Hin as [Hin _].
  apply list_elem_of_filter in Hin as [Hal Hin]. cbn [fst] in Hal.
  apply elem_of_timed in Hin as (i & Hi & ->).
  exists i, r. repeat split; assumption.
Qed.

(** C4: in every batch run, a row is appended to the outgoing prices only
    when the wall-clock time of its iteration is an exact multiple of 600
    seconds; when no reading is such a multiple, all rows are dropped and
    the run leaves the database as it was (nothing logged, nothing marked). *)
Theorem rows_kept_only_at_aligned_times (clock : nat -> Z) (db : database) :
  (forall i, float_exact_range (clock i)) ->
  exists kept,
    collect_prices clock db = Return kept
    /\ (forall price, price ∈ kept ->
          exists i row,
            fetchall db !! i = Some row
            /\ price = ResultDict.set_normalized_timestamp row (clock i)
            /\ clock i mod 600 = 0)
    /\ ((forall i, clock i mod 600 <> 0) ->
          kept = [] /\ read_prices_from_db clock db = Return db).
Proof.
  intros Hclock. destruct (collect_prices_kept clock db Hclock) as (kept & Hc & Hk).
  exists kept. split; [exact Hc|]. split; [exact Hk|].
  intros Hnever.
  assert (Hnil : kept = []).
  { destruct kept as [| price rest]; [reflexivity|].
    destruct (Hk price ltac:(left)) as (i & _ & _ & _ & Hal).
    exfalso. exact (Hnever i Hal). }
  split; [exact Hnil|].
  unfold read_prices_from_db. rewrite Hc, Hnil. reflexivity.
Qed.

Lemma group_prices_elems (prices_in : list ResultDict.t) :
  forall xlm usd ss groups,
    group_prices prices_in xlm usd ss = Return groups ->
    forall parsed, parsed ∈ groups.1.1 ++ groups.1.2 ->
      parsed ∈ xlm ++ usd
      \/ exists price, price ∈ prices_in /\ parsed_price price = Return parsed.
Proof.
  induction prices_in as [| price rest IH]; intros xlm usd ss groups Hg parsed Hin.
  - cbn in Hg. injection Hg as <-. left. exact Hin.
  - cbn [group_prices] in Hg.
    destruct (parsed_price price) as [pp |] eqn:Hpp; [| discriminate].
    cbn [bind] in Hg.
    assert (Hstep : forall xlm1 usd1 ss1,
               group_prices rest xlm1 usd1 ss1 = Return groups ->
               (forall q, q ∈ xlm1 ++ usd1 -> q ∈ xlm ++ usd \/ q = pp) ->
               parsed ∈ xlm ++ usd
               \/ exists price0, price0 ∈ price :: rest
                                 /\ parsed_price price0 = Return parsed).
    { intros xlm1 usd1 ss1 Hg1 Hacc.
      destruct (IH _ _ _ _ Hg1 parsed Hin) as [Hold | (price0 & Hp0 & Hpp0)].
      - destruct (Hacc parsed Hold) as [H | ->]; [left; exact H|].
        right. exists price. split; [left | exact Hpp].
      - right. exists price0. split; [right; exact Hp0 | exact Hpp0]. }
    destruct (decide (ResultDict.sell_asset price = "XLM")).
    + apply (Hstep _ _ _ Hg). intros q. rewrite !elem_of_app, list_elem_of_singleton. tauto.
    + destruct (decide (ResultDict.sell_asset price = "USD")); [| discriminate].
      apply (Hstep _ _ _ Hg). intros q. rewrite !elem_of_app, list_elem_of_singleton. tauto.
Qed.

(** C3, as amended: for every price row the batch feeder forwards to
    submission, the timestamp field handed to the submission step equals the
    wall-clock time of the iteration that read the row; that time is a
    multiple of 600 seconds, so it is its own round-up.  The row's
    [updated_at] does not enter. *)
Theorem forwarded_timestamp_is_read_time (clock : nat -> Z) (db : database) :
  (forall i, float_exact_range (clock i)) ->
  exists kept,
    collect_prices clock db = Return kept
    /\ (forall price, price ∈ kept ->
          exists i row parsed,
            fetchall db !! i = Some row
            /\ parsed_price price = Return parsed
            /\ ParsedPrice.timestamp parsed = clock i
            /\ ParsedPrice.source parsed = ResultDict.source row
            /\ ParsedPrice.asset parsed = ResultDict.buy_asset row
            /\ clock i mod 600 = 0
            /\ normalize_timestamp (clock i) RESOLUTION = Return (clock i))
    /\ (forall groups parsed,
          group_prices kept [] [] ∅ = Return groups ->
          parsed ∈ groups.1.1 ++ groups.1.2 ->
          exists i, is_Some (fetchall db !! i)
                    /\ ParsedPrice.timestamp parsed = clock i
                    /\ clock i mod 600 = 0).
Proof.
  intros Hclock. destruct (collect_prices_kept clock db Hclock) as (kept & Hc & Hk).
  exists kept. split; [exact Hc|].
  assert (Hrow : forall price, price ∈ kept ->
            exists i row parsed,
              fetchall db !! i = Some row
              /\ parsed_price price = Return parsed
              /\ ParsedPrice.timestamp parsed = clock i
              /\ ParsedPrice.source parsed = ResultDict.source row
              /\ ParsedPrice.asset parsed = ResultDict.buy_asset row
              /\ clock i mod 600 = 0
              /\ normalize_timestamp (clock i) RESOLUTION = Return (clock i)).
  { intros price Hin. destruct (Hk price Hin) as (i & row & Hi & -> & Hal).
    exists i, row. eexists. split; [exact Hi|]. split; [reflexivity|].
    cbn. repeat split; try exact Hal.
    destruct (normalize_timestamp_gate (clock i) (Hclock i)) as (n & Hn & _ & Hsame).
    rewrite Hn, (Hsame Hal). reflexivity. }
  split; [exact Hrow|].
  intros groups parsed Hg Hin.
  destruct (group_prices_elems kept [] [] ∅ groups Hg parsed Hin)
    as [Hnil | (price & Hp & Hpp)]; [inversion Hnil|].
  destruct (Hrow price Hp) as (i & row & parsed' & Hi & Hpp' & Hts & _ & _ & Hal & _).
  rewrite Hpp in Hpp'. injection Hpp' as <-.
  exists i. split; [exists row; exact Hi|]. split; assumption.
Qed.

Lemma filter_all (rows : list (Z * ResultDict.t)) :
  Forall (fun tr => aligned tr.1) rows ->
  filter (fun tr => aligned tr.1) rows = rows.
Proof.
  induction 1 as [| tr rest Hal _ IH]; [reflexivity|].
  rewrite filter_cons_True by exact Hal. f_equal. exact IH.
Qed.

Lemma timed_all_aligned (clock : nat -> Z) (rows : list ResultDict.t) (k : nat) :
  (forall i, aligned (clock i)) ->
  Forall (fun tr => aligned tr.1) (timed clock k rows).
Proof.
  intros Hal. revert k. induction rows as [| row rest IH]; intros k; cbn [timed].
  - constructor.
  - constructor; [apply Hal | apply IH].
Qed.


Lemma mark_keys_nil (rows : list Row.t) : mark_keys [] <$> rows = rows.
Proof.
  rewrite <- (list_fmap_id rows) at 2. apply list_fmap_ext.
  intros i row _. unfold mark_keys.
  rewrite bool_decide_eq_false_2; [reflexivity | apply not_elem_of_nil].
Qed.

Lemma insert_newer_first_Permutation (row : Row.t) (sorted : list Row.t) :
  insert_newer_first row sorted ≡ₚ row :: sorted.
Proof.
  induction sorted as [| other rest IH]; cbn [insert_newer_first].
  - reflexivity.
  - destruct (decide (newer_first row other)); [reflexivity|].
    rewrite IH. apply Permutation_swap.
Qed.

Lemma order_by_updated_at_desc_Permutation (rows : list Row.t) :
  order_by_updated_at_desc rows ≡ₚ rows.
Proof.
  induction rows as [| row rest IH]; cbn [order_by_updated_at_desc foldr].
  - reflexivity.
  - rewrite insert_newer_first_Permutation. constructor. exact IH.
Qed.

Lemma fetchall_unmarked (db : database) (r : ResultDict.t) :
  r ∈ fetchall db ->
  exists row, row ∈ prices db /\ r = to_dict row
              /\ Row.added_to_blockchain row = false.
Proof.
  unfold fetchall. intros Hin.
  apply list_elem_of_fmap in Hin as (row & -> & Hin).
  rewrite order_by_updated_at_desc_Permutation in Hin.
  apply list_elem_of_In, filter_In in Hin as [Hin Hsel].
  exists row. split; [apply list_elem_of_In; exact Hin|]. split; [reflexivity|].
  unfold selected in Hsel.
  destruct (Row.added_to_blockchain row); [| reflexivity].
  rewrite andb_false_r in Hsel. discriminate.
Qed.

(** What the marking loop of [add_prices_to_blockchain] does, as written: it
    never looks at [success], so once the submissions have been attempted
    every (source, symbol) pair of a forwarded row is marked, whatever each
    submission reported, and the next read returns no row of such a pair. *)
Lemma marking_follows_every_attempt (clock : nat -> Z) (db : database) :
  (forall i, float_exact_range (clock i)) ->
  exists kept,
    collect_prices clock db = Return kept
    /\ (Forall supported kept ->
        exists db',
          read_prices_from_db clock db = Return db'
          /\ prices db' = mark_keys (key <$> kept) <$> prices db
          /\ (forall r, r ∈ fetchall db' -> key r ∉ key <$> kept)).
Proof.
  intros Hclock. destruct (collect_prices_kept clock db Hclock) as (kept & Hc & Hk).
  exists kept. split; [exact Hc|]. intros Hsup.
  assert (Hts : Forall has_timestamp kept).
  { apply Forall_forall. intros price Hin.
    destruct (Hk price Hin) as (i & row & _ & -> & _). eexists. reflexivity. }
  assert (Hrun : exists db', read_prices_from_db clock db = Return db'
                             /\ prices db' = mark_keys (key <$> kept) <$> prices db).
  { unfold read_prices_from_db. rewrite Hc. cbn [bind].
    destruct kept as [| price rest] eqn:Ekept.
    - exists db. split; [reflexivity|]. cbn [fmap list_fmap].
      symmetry. apply mark_keys_nil.
    - apply add_prices_to_blockchain_marks; assumption. }
  destruct Hrun as (db' & Hrun & Hprices).
  exists db'. split; [exact Hrun|]. split; [exact Hprices|].
  intros r Hr Hkey.
  apply fetchall_unmarked in Hr as (row' & Hrow' & -> & Hadded).
  rewrite Hprices in Hrow'.
  apply list_elem_of_fmap in Hrow' as (row & -> & _).
  unfold mark_keys in Hadded, Hkey.
  destruct (bool_decide (row_key row ∈ key <$> kept)) eqn:Hb.
  - cbn in Hadded. discriminate.
  - apply bool_decide_eq_false in Hb. apply Hb. exact Hkey.
Qed.

End FeederStatements.

(** ** The batch feeder: concrete runs *)

Import Examples.

Lemma clock_1200_in_range : forall i, float_exact_range (clock_1200 i).
Proof. intros i. unfold float_exact_range, clock_1200. lia. Qed.

Example failed_run :
  @read_prices_from_db failing_env clock_1200 db_one
  = Return
      {| prices := [Row.set_added_to_blockchain (price_row 1 100 "A" "XLM")];
         feed_bulk_from_db_logs :=
           [ {| command := "--oracle-contract-id CXLM oracle add_prices_base64 [...]";
                output := "Error: transaction failed";
                success := false |} ] |}.
Proof. vm_compute. reflexivity. Qed.


Lemma grouping_partitions_by_sell_asset_witness :
  Forall has_timestamp mixed_prices
  /\ Forall supported mixed_prices
  /\ exists xlm usd source_symbols,
       group_prices mixed_prices [] [] ∅ = Return (xlm, usd, source_symbols)
       /\ Forall2 (fun price parsed => parsed_price price = Return parsed)
                  (filter is_xlm mixed_prices) xlm
       /\ Forall2 (fun price parsed => parsed_price price = Return parsed)
                  (filter is_usd mixed_prices) usd
       /\ sublist (filter is_xlm mixed_prices) mixed_prices
       /\ sublist (filter is_usd mixed_prices) mixed_prices
       /\ (forall price, price ∈ filter is_xlm mixed_prices ->
                         price ∉ filter is_usd mixed_prices)
       /\ filter is_xlm mixed_prices ++ filter is_usd mixed_prices ≡ₚ mixed_prices.
Proof.
  assert (H1 : Forall has_timestamp mixed_prices)
    by (repeat constructor; eexists; reflexivity).
  assert (H2 : Forall supported mixed_prices)
    by (repeat constructor; solve [left; reflexivity | right; reflexivity]).
  split; [exact H1|]. split; [exact H2|].
  exact (grouping_partitions_by_sell_asset mixed_prices H1 H2).
Defined.

Lemma unsupported_sell_asset_raises_witness :
  Forall has_timestamp euro_prices
  /\ Exists (fun price => ~ supported price) euro_prices
  /\ exists bad,
       bad ∈ euro_prices /\ ~ supported bad
       /\ @add_prices_to_blockchain failing_env euro_prices db_one
          = Raise (ValueError ("Unexpected price sell_asset: "
                                 +:+ ResultDict.sell_asset bad)).
Proof.
  assert (H1 : Forall has_timestamp euro_prices)
    by (repeat constructor; eexists; reflexivity).
  assert (H2 : Exists (fun price => ~ supported price) euro_prices).
  { apply Exists_cons_tl, Exists_cons_hd. intros [H | H]; discriminate H. }
  split; [exact H1|]. split; [exact H2|].
  exact (@unsupported_sell_asset_raises failing_env euro_prices db_one H1 H2).
Defined.

Lemma rows_kept_only_at_aligned_times_witness :
  (forall i, float_exact_range (clock_599 i))
  /\ (forall i, clock_599 i mod 600 <> 0)
  /\ collect_prices clock_599 db_twins = Return []
  /\ @read_prices_from_db failing_env clock_599 db_twins = Return db_twins.
Proof.
  assert (H1 : forall i, float_exact_range (clock_599 i))
    by (intros i; unfold float_exact_range, clock_599; lia).
  assert (H2 : forall i, clock_599 i mod 600 <> 0)
    by (intros i; unfold clock_599; discriminate).
  split; [exact H1|]. split; [exact H2|].
  destruct (@rows_kept_only_at_aligned_times failing_env clock_599 db_twins H1)
    as (kept & Hc & _ & Hdrop).
  destruct (Hdrop H2) as [-> Hrun]. split; assumption.
Defined.

Lemma forwarded_timestamp_is_read_time_witness :
  (forall i, float_exact_range (clock_1200 i))
  /\ exists kept,
       collect_prices clock_1200 db_one = Return kept
       /\ forall price, price ∈ kept ->
            exists i row parsed,
              fetchall db_one !! i = Some row
              /\ parsed_price price = Return parsed
              /\ ParsedPrice.timestamp parsed = clock_1200 i.
Proof.
  split; [exact clock_1200_in_range|].
  destruct (forwarded_timestamp_is_read_time clock_1200 db_one clock_1200_in_range)
    as (kept & Hc & Hk & _).
  exists kept. split; [exact Hc|]. intros price Hin.
  destruct (Hk price Hin) as (i & row & parsed & H1 & H2 & H3 & _).
  exists i, row, parsed. repeat split; assumption.
Defined.


Lemma marking_follows_every_attempt_witness :
  (forall i, float_exact_range (clock_1200 i))
  /\ exists db',
       @read_prices_from_db failing_env clock_1200 db_one = Return db'
       /\ prices db' = mark_keys [(1, "A")] <$> prices db_one
       /\ (forall r, r ∈ fetchall db' -> key r ∉ [(1, "A")]).
Proof.
  split; [exact clock_1200_in_range|].
  destruct (@marking_follows_every_attempt failing_env clock_1200 db_one
              clock_1200_in_range) as (kept & Hc & Hmark).
  assert (Hkept : kept = [stamp (1200, to_dict (price_row 1 100 "A" "XLM"))]).
  { vm_compute in Hc. injection Hc as <-. reflexivity. }
  subst kept. apply Hmark. constructor; [left; reflexivity | constructor].
Defined.

(** C2 does not hold of the code.  Input: one unsent active XLM row, read at
    second 1200, and a CLI child that exits with a non-zero status.  [run_cli]
    reports failure and the attempt is logged with [success = false], yet the
    run marks the row [added_to_blockchain], so that the next read no longer
    returns it: the marking loop of [add_prices_to_blockchain] runs whatever
    [success] was. *)
Theorem failed_submission_marks_row :
  @run_cli failing_env "--oracle-contract-id CXLM oracle add_prices_base64 [...]"
  = (false, "Error: transaction failed")
  /\ @read_prices_from_db failing_env clock_1200 db_one
     = Return
         {| prices := [Row.set_added_to_blockchain (price_row 1 100 "A" "XLM")];
            feed_bulk_from_db_logs :=
              [ {| command := "--oracle-contract-id CXLM oracle add_prices_base64 [...]";
                   output := "Error: transaction failed";
                   success := false |} ] |}
  /\ fetchall db_one = [to_dict (price_row 1 100 "A" "XLM")]
  /\ fetchall
       {| prices := [Row.set_added_to_blockchain (price_row 1 100 "A" "XLM")];
          feed_bulk_from_db_logs :=
            [ {| command := "--oracle-contract-id CXLM oracle add_prices_base64 [...]";
                 output := "Error: transaction failed";
                 success := false |} ] |}
     = []
  /\ ~ @marked_only_after_success failing_env clock_1200 db_one.
Proof.
  split; [vm_compute; reflexivity|].
  split; [exact failed_run|].
  split; [vm_compute; reflexivity|].
  split; [vm_compute; reflexivity|].
  intros Hstated.
  destruct (Hstated _ 0%nat (price_row 1 100 "A" "XLM")
              (Row.set_added_to_blockchain (price_row 1 100 "A" "XLM"))
              failed_run eq_refl eq_refl eq_refl eq_refl)
    as (group & out & Hin).
  cbn in Hin. apply list_elem_of_singleton in Hin. discriminate Hin.
Qed.

(** C3, as stated, fails: a row last updated at second 100 and read at
    second 1200 is forwarded with timestamp 1200, not 600. *)
Lemma forwarded_timestamp_not_the_rows :
  ~ forwards_own_timestamp clock_1200 db_one.
Proof.
  intros Hstated.
  assert (Hts : normalize_timestamp 100 RESOLUTION = Return 1200).
  { apply (Hstated [stamp (1200, to_dict (price_row 1 100 "A" "XLM"))]
             ([ {| ParsedPrice.source := 1; ParsedPrice.asset_type := "other";
                   ParsedPrice.asset := "BTC"; ParsedPrice.price := "1.00";
                   ParsedPrice.timestamp := 1200 |} ], [], {[ 1 := ["A"] ]})
             (stamp (1200, to_dict (price_row 1 100 "A" "XLM")))
             {| ParsedPrice.source := 1; ParsedPrice.asset_type := "other";
                ParsedPrice.asset := "BTC"; ParsedPrice.price := "1.00";
                ParsedPrice.timestamp := 1200 |}).
    - vm_compute. reflexivity.
    - vm_compute. reflexivity.
    - left.
    - reflexivity.
    - left. }
  vm_compute in Hts. discriminate Hts.
Qed.


(** ** The command-line clients *)

(** *** Exit codes *)

Lemma sep40_rpc_failure_exits_one (resp : Sep40Cli.response) :
  299 < Sep40Cli.status_code resp ->
  process_exit_code (Sep40Cli.perform_rpc_request resp).2 = 1.
Proof.
  intros H. unfold Sep40Cli.perform_rpc_request.
  replace (299 <? Sep40Cli.status_code resp) with true
    by (symmetry; apply Z.ltb_lt; exact H).
  reflexivity.
Qed.

Example sep40_server_error_exits_one :
  Sep40Cli.perform_rpc_request server_error
  = ([Print (Fore_RED +:+ "Failed to perform RPC request: status=500 response=oops"
               +:+ Style_RESET_ALL)],
     Raise (TyperExit 1)).
Proof. vm_compute. reflexivity. Qed.

(** Whatever transaction the poll settles on, if it is not a success the
    example client reports the error and exits with status 0. *)
Lemma price_up_down_abort_exits_zero (fuel : nat) (verbose : bool)
    (tx_xdr prepared_xdr : string)
    (send : PriceUpDownCli.SendTransactionResponse)
    (poll : nat -> PriceUpDownCli.GetTransactionResponse)
    (evs : list event) (tx_data : PriceUpDownCli.GetTransactionResponse) :
  PriceUpDownCli.send_status send = PriceUpDownCli.PENDING ->
  PriceUpDownCli.wait_tx fuel verbose poll 0 = Some (evs, tx_data) ->
  PriceUpDownCli.status tx_data <> PriceUpDownCli.SUCCESS ->
  exists printed,
    PriceUpDownCli.invoke_contract_function fuel verbose tx_xdr prepared_xdr send poll
    = Some (printed ++ PriceUpDownCli.print_error
                         ("Error: " +:+ PriceUpDownCli.repr tx_data),
            Raise (TyperExit 0)).
Proof.
  intros Hsend Hwait Hfail.
  unfold PriceUpDownCli.invoke_contract_function, PriceUpDownCli.send_tx.
  rewrite Hsend, Hwait.
  destruct (decide (PriceUpDownCli.PENDING <> PriceUpDownCli.PENDING)) as [Hne | _];
    [contradiction|].
  cbn [cli_bind emit PriceUpDownCli.abort].
  destruct (decide (PriceUpDownCli.status tx_data <> PriceUpDownCli.SUCCESS))
    as [_ | Hs]; [| contradiction].
  unfold PriceUpDownCli.abort. cbv beta iota zeta.
  eexists. rewrite app_assoc. reflexivity.
Qed.

(** C8 fails in the example client: a transaction that fails on chain is
    reported in red, and the process then exits with status 0, because
    [abort] raises [typer.Exit()] without a code; the same failure path of
    the sep40 client exits with status 1. *)
Theorem price_up_down_failed_transaction_exits_zero :
  PriceUpDownCli.invoke_contract_function 1 false "AAAA" "AAAB" pending_send
    failed_poll
  = Some ([Print (Fore_RED +:+ "Error: <failed>" +:+ Style_RESET_ALL)],
          Raise (TyperExit 0))
  /\ exit_status (PriceUpDownCli.invoke_contract_function 1 false "AAAA" "AAAB"
                    pending_send failed_poll) = Some 0
  /\ process_exit_code (Sep40Cli.perform_rpc_request server_error).2 = 1.
Proof. repeat split; vm_compute; reflexivity. Qed.

(** *** wait_tx *)

Section WaitTx.
Import PriceUpDownCli.
Variable verbose : bool.
Variable poll : nat -> GetTransactionResponse.

Lemma sleeps_vprint (msg : string) : sleeps (vprint verbose msg) = [].
Proof. unfold vprint. destruct verbose; reflexivity. Qed.

Lemma sleeps_app (evs1 evs2 : list event) :
  sleeps (evs1 ++ evs2) = sleeps evs1 ++ sleeps evs2.
Proof. unfold sleeps. apply omap_app. Qed.

(** With the first settled answer [k] polls ahead, any fuel above [k]
    suffices; the loop sleeps 3 seconds after each of the [k] earlier polls. *)
Lemma wait_tx_first_settled (k : nat) :
  forall i fuel,
    status (poll (i + k)) <> NOT_FOUND ->
    (forall j, (j < k)%nat -> status (poll (i + j)) = NOT_FOUND) ->
    (k < fuel)%nat ->
    exists evs, wait_tx fuel verbose poll i = Some (evs, poll (i + k)%nat)
                /\ sleeps evs = replicate k 3.
Proof.
  induction k as [| k IH]; intros i fuel Hk Hbefore Hfuel.
  - destruct fuel as [| fuel]; [lia|]. cbn [wait_tx].
    rewrite Nat.add_0_r in *.
    destruct (decide (status (poll i) <> NOT_FOUND)) as [_ | Hn]; [| contradiction].
    eexists. split; [reflexivity | apply sleeps_vprint].
  - destruct fuel as [| fuel]; [lia|]. cbn [wait_tx].
    destruct (decide (status (poll i) <> NOT_FOUND)) as [Hn | _].
    { exfalso. apply Hn. rewrite <- (Nat.add_0_r i). apply Hbefore. lia. }
    destruct (IH (S i) fuel) as (evs & Hw & Hs).
    + replace (S i + k)%nat with (i + S k)%nat by lia. exact Hk.
    + intros j Hj. replace (S i + j)%nat with (i + S j)%nat by lia.
      apply Hbefore. lia.
    + lia.
    + rewrite Hw. eexists. split.
      * replace (i + S k)%nat with (S i + k)%nat by lia. reflexivity.
      * rewrite sleeps_app, sleeps_vprint. cbn. f_equal. exact Hs.
Qed.

(** Whatever [wait_tx] returns is the first settled answer. *)
Lemma wait_tx_returns_first (fuel : nat) :
  forall i evs r,
    wait_tx fuel verbose poll i = Some (evs, r) ->
    exists k, r = poll (i + k)%nat
              /\ status (poll (i + k)) <> NOT_FOUND
              /\ (forall j, (j < k)%nat -> status (poll (i + j)) = NOT_FOUND)
              /\ sleeps evs = replicate k 3.
Proof.
  induction fuel as [| fuel IH]; intros i evs r Hw; [discriminate|].
  cbn [wait_tx] in Hw.
  destruct (decide (status (poll i) <> NOT_FOUND)) as [Hn | Hn].
  - injection Hw as <- <-. exists 0%nat. rewrite Nat.add_0_r.
    split; [reflexivity|]. split; [exact Hn|]. split; [lia | apply sleeps_vprint].
  - destruct (wait_tx fuel verbose poll (S i)) as [[evs' r'] |] eqn:Hrec;
      [| discriminate].
    injection Hw as <- <-.
    destruct (IH _ _ _ Hrec) as (k & -> & Hk & Hbefore & Hs).
    exists (S k). replace (i + S k)%nat with (S i + k)%nat by lia.
    split; [reflexivity|]. split; [exact Hk|]. split.
    + intros [| j] Hj.
      * rewrite Nat.add_0_r. destruct (status (poll i)); try reflexivity;
          exfalso; apply Hn; discriminate.
      * replace (i + S j)%nat with (S i + j)%nat by lia. apply Hbefore. lia.
    + rewrite sleeps_app, sleeps_vprint. cbn. f_equal. exact Hs.
Qed.

Lemma wait_tx_terminates (n : nat) :
  forall i, status (poll (i + n)) <> NOT_FOUND ->
            exists fuel out, wait_tx fuel verbose poll i = Some out.
Proof.
  induction n as [| n IH]; intros i Hn.
  - exists 1%nat. cbn [wait_tx]. rewrite Nat.add_0_r in Hn.
    destruct (decide (status (poll i) <> NOT_FOUND)); [| contradiction].
    eexists. reflexivity.
  - destruct (decide (status (poll i) <> NOT_FOUND)) as [Hi | Hi].
    + exists 1%nat. cbn [wait_tx].
      destruct (decide (status (poll i) <> NOT_FOUND)); [| contradiction].
      eexists. reflexivity.
    + destruct (IH (S i)) as (fuel & [evs r] & Hw).
      { replace (S i + n)%nat with (i + S n)%nat by lia. exact Hn. }
      exists (S fuel). cbn [wait_tx].
      destruct (decide (status (poll i) <> NOT_FOUND)); [contradiction|].
      rewrite Hw. eexists. reflexivity.
Qed.

(** C9: for every sequence of poll answers, [wait_tx] returns the first
    answer whose status is not NOT_FOUND, having slept 3 seconds after each
    earlier poll, however many polls that takes; and it terminates if and
    only if some answer of the sequence has a status other than NOT_FOUND. *)
Theorem wait_tx_polls_until_settled :
  (forall k,
      status (poll k) <> NOT_FOUND ->
      (forall j, (j < k)%nat -> status (poll j) = NOT_FOUND) ->
      forall fuel, (k < fuel)%nat ->
        exists evs, wait_tx fuel verbose poll 0 = Some (evs, poll k)
                    /\ sleeps evs = replicate k 3)
  /\ (forall fuel evs r,
        wait_tx fuel verbose poll 0 = Some (evs, r) ->
        exists k, r = poll k
                  /\ status (poll k) <> NOT_FOUND
                  /\ (forall j, (j < k)%nat -> status (poll j) = NOT_FOUND)
                  /\ sleeps evs = replicate k 3)
  /\ ((exists fuel out, wait_tx fuel verbose poll 0 = Some out)
      <-> exists i, status (poll i) <> NOT_FOUND).
Proof.
  split; [| split].
  - intros k Hk Hbefore fuel Hfuel.
    exact (wait_tx_first_settled k 0 fuel Hk Hbefore Hfuel).
  - intros fuel evs r Hw. exact (wait_tx_returns_first fuel 0 evs r Hw).
  - split.
    + intros (fuel & [evs r] & Hw).
      destruct (wait_tx_returns_first fuel 0 evs r Hw) as (k & _ & Hk & _).
      exists k. exact Hk.
    + intros (i & Hi). exact (wait_tx_terminates i 0 Hi).
Qed.

End WaitTx.

Lemma wait_tx_polls_until_settled_witness :
  exists evs,
    PriceUpDownCli.wait_tx 3 true third_poll 0 = Some (evs, third_poll 2)
    /\ sleeps evs = [3; 3].
Proof.
  apply (proj1 (wait_tx_polls_until_settled true third_poll) 2%nat).
  - vm_compute. discriminate.
  - intros j Hj. destruct j as [| [| j]]; [reflexivity | reflexivity | lia].
  - lia.
Defined.

(** *** build_asset_enum *)

Section BuildAssetEnum.
Context `{sdk : Sep40Cli.ScvalSdk} `{types : PriceUpDownCli.SorobanTypes}.

(** C10: for either member of [AssetType], [build_asset_enum] takes the
    branch tagged for that member and never the fallback; for a value that
    is no member, the fallback returns a [ValueError] instance as an
    ordinary result, and nothing is raised.  Both clients. *)
Theorem build_asset_enum_branches :
  (forall asset,
      Sep40Cli.build_asset_enum (Member Sep40Cli.stellar) asset
      = (let! a := Sep40Cli.to_address asset in
         Return (Sep40Cli.Value (Sep40Cli.to_enum "Stellar" a)))
      /\ Sep40Cli.build_asset_enum (Member Sep40Cli.other) asset
         = (let! a := Sep40Cli.to_symbol asset in
            Return (Sep40Cli.Value (Sep40Cli.to_enum "Other" a)))
      /\ PriceUpDownCli.build_asset_enum (Member PriceUpDownCli.stellar) asset
         = (let! a := PriceUpDownCli.Address asset in
            Return (PriceUpDownCli.Value (PriceUpDownCli.Enum "Stellar" a)))
      /\ PriceUpDownCli.build_asset_enum (Member PriceUpDownCli.other) asset
         = (let! a := PriceUpDownCli.Symbol asset in
            Return (PriceUpDownCli.Value (PriceUpDownCli.Enum "Other" a))))
  /\ (forall member asset e,
        Sep40Cli.build_asset_enum (Member member) asset
        <> Return (Sep40Cli.ExceptionInstance e))
  /\ (forall member asset e,
        PriceUpDownCli.build_asset_enum (Member member) asset
        <> Return (PriceUpDownCli.ExceptionInstance e))
  /\ (forall (v : py_value Sep40Cli.AssetType) asset,
        (forall member, v <> Member member) ->
        Sep40Cli.build_asset_enum v asset
        = Return (Sep40Cli.ExceptionInstance
                    (ValueError ("unexpected asset_type: "
                                   +:+ py_str Sep40Cli.AssetType_str v))))
  /\ (forall (v : py_value PriceUpDownCli.AssetType) asset,
        (forall member, v <> Member member) ->
        PriceUpDownCli.build_asset_enum v asset
        = Return (PriceUpDownCli.ExceptionInstance
                    (ValueError ("unexpected asset_type: "
                                   +:+ py_str PriceUpDownCli.AssetType_str v)))).
Proof.
  assert (Hsep : forall asset,
             Sep40Cli.build_asset_enum (Member Sep40Cli.stellar) asset
             = (let! a := Sep40Cli.to_address asset in
                Return (Sep40Cli.Value (Sep40Cli.to_enum "Stellar" a)))
             /\ Sep40Cli.build_asset_enum (Member Sep40Cli.other) asset
                = (let! a := Sep40Cli.to_symbol asset in
                   Return (Sep40Cli.Value (Sep40Cli.to_enum "Other" a))))
    by (intros asset; split; reflexivity).
  assert (Hpud : forall asset,
             PriceUpDownCli.build_asset_enum (Member PriceUpDownCli.stellar) asset
             = (let! a := PriceUpDownCli.Address asset in
                Return (PriceUpDownCli.Value (PriceUpDownCli.Enum "Stellar" a)))
             /\ PriceUpDownCli.build_asset_enum (Member PriceUpDownCli.other) asset
                = (let! a := PriceUpDownCli.Symbol asset in
                   Return (PriceUpDownCli.Value (PriceUpDownCli.Enum "Other" a))))
    by (intros asset; split; reflexivity).
  split.
  { intros asset. destruct (Hsep asset) as [H1 H2]. destruct (Hpud asset) as [H3 H4].
    repeat split; assumption. }
  split.
  { intros member asset e H. destruct (Hsep asset) as [H1 H2].
    destruct member; [rewrite H1 in H | rewrite H2 in H];
      [destruct (Sep40Cli.to_address asset) | destruct (Sep40Cli.to_symbol asset)];
      cbn [bind] in H; congruence. }
  split.
  { intros member asset e H. destruct (Hpud asset) as [H1 H2].
    destruct member; [rewrite H1 in H | rewrite H2 in H];
      [destruct (PriceUpDownCli.Address asset) | destruct (PriceUpDownCli.Symbol asset)];
      cbn [bind] in H; congruence. }
  split.
  - intros v asset Hv. destruct v as [member | s | z |]; try reflexivity.
    exfalso. exact (Hv member eq_refl).
  - intros v asset Hv. destruct v as [member | s | z |]; try reflexivity.
    exfalso. exact (Hv member eq_refl).
Qed.

End BuildAssetEnum.

Lemma build_asset_enum_branches_witness :
  (forall member, PyStr "stellar" <> @Member Sep40Cli.AssetType member)
  /\ @Sep40Cli.build_asset_enum text_scval (PyStr "stellar") "GABC"
     = Return (@Sep40Cli.ExceptionInstance text_scval
                 (ValueError "unexpected asset_type: stellar")).
Proof.
  assert (H : forall member, PyStr "stellar" <> @Member Sep40Cli.AssetType member)
    by (intros member; discriminate).
  split; [exact H|].
  exact (proj1 (proj2 (proj2 (proj2 (@build_asset_enum_branches text_scval text_soroban))))
           (PyStr "stellar") "GABC" H).
Defined.

(** * Further properties *)

(** ** normalize_timestamp *)

Lemma ceiling_600_in_range (t : Z) :
  float_exact_range t -> float_exact_range (- ((- t) / 600) * 600).
Proof.
  intros [Hlo Hhi]. unfold float_exact_range.
  pose proof (Z.div_mod (- t) 600 ltac:(lia)) as Hdm.
  pose proof (Z.mod_pos_bound (- t) 600 ltac:(lia)) as Hb.
  assert (Hq : - 2 ^ 44 <= (- t) / 600).
  { apply Z.div_le_lower_bound; lia. }
  lia.
Qed.

(** X1: Normalising twice is normalising once: a normalised timestamp is
    returned unchanged. *)
Theorem normalize_timestamp_idempotent (t : Z) :
  float_exact_range t ->
  exists n,
    normalize_timestamp t RESOLUTION = Return n
    /\ normalize_timestamp n RESOLUTION = Return n.
Proof.
  intros Ht. exists (- ((- t) / 600) * 600).
  split; [now apply normalize_timestamp_600|].
  destruct (normalize_timestamp_gate _ (ceiling_600_in_range t Ht))
    as (n & -> & _ & Hsame).
  f_equal. apply Hsame. apply Z.mod_mul. lia.
Qed.

Lemma normalize_timestamp_idempotent_witness :
  float_exact_range 1700000001
  /\ exists n,
       normalize_timestamp 1700000001 RESOLUTION = Return n
       /\ normalize_timestamp n RESOLUTION = Return n.
Proof.
  assert (H : float_exact_range 1700000001) by (unfold float_exact_range; lia).
  split; [exact H | exact (normalize_timestamp_idempotent 1700000001 H)].
Defined.

(** X2: A later raw timestamp never normalises to an earlier bucket. *)
Theorem normalize_timestamp_monotone (t1 t2 : Z) :
  float_exact_range t1 -> float_exact_range t2 -> t1 <= t2 ->
  exists n1 n2,
    normalize_timestamp t1 RESOLUTION = Return n1
    /\ normalize_timestamp t2 RESOLUTION = Return n2
    /\ n1 <= n2.
Proof.
  intros H1 H2 Hle.
  exists (- ((- t1) / 600) * 600), (- ((- t2) / 600) * 600).
  split; [now apply normalize_timestamp_600|].
  split; [now apply normalize_timestamp_600|].
  assert ((- t2) / 600 <= (- t1) / 600) by (apply Z.div_le_mono; lia).
  lia.
Qed.

Lemma normalize_timestamp_monotone_witness :
  float_exact_range 599 /\ float_exact_range 601 /\ 599 <= 601
  /\ exists n1 n2,
       normalize_timestamp 599 RESOLUTION = Return n1
       /\ normalize_timestamp 601 RESOLUTION = Return n2
       /\ n1 <= n2.
Proof.
  assert (H1 : float_exact_range 599) by (unfold float_exact_range; lia).
  assert (H2 : float_exact_range 601) by (unfold float_exact_range; lia).
  assert (H3 : 599 <= 601) by lia.
  split; [exact H1|]. split; [exact H2|]. split; [exact H3|].
  exact (normalize_timestamp_monotone 599 601 H1 H2 H3).
Defined.

(** ** The batch feeder *)

Import FeederMore.

Section FeederFurther.
Context `{env : FeederEnv}.

(** *** The query *)

(** The order of the query: newest first, and rows that already are in that
    order, rows of equal [updated_at] among them, stay as they are in the
    table. *)
Lemma insert_newer_first_Sorted (row : Row.t) (sorted : list Row.t) :
  Sorted newer_first sorted -> Sorted newer_first (insert_newer_first row sorted).
Proof.
  induction sorted as [| other rest IH]; intros Hs; cbn [insert_newer_first].
  - repeat constructor.
  - destruct (decide (newer_first row other)) as [Hn | Hn].
    + constructor; [exact Hs | constructor; exact Hn].
    + inversion Hs as [| ? ? Hrest Hhd]; subst.
      constructor; [apply IH; exact Hrest|].
      assert (Hother : newer_first other row) by (unfold newer_first in *; lia).
      destruct rest as [| next rest']; cbn [insert_newer_first].
      * constructor. exact Hother.
      * destruct (decide (newer_first row next)); constructor;
          [exact Hother | inversion Hhd; assumption].
Qed.

Lemma order_by_updated_at_desc_Sorted (rows : list Row.t) :
  Sorted newer_first (order_by_updated_at_desc rows).
Proof.
  induction rows as [| row rest IH]; cbn [order_by_updated_at_desc foldr].
  - constructor.
  - apply insert_newer_first_Sorted. exact IH.
Qed.

Lemma order_by_updated_at_desc_stable (rows : list Row.t) :
  Sorted newer_first rows -> order_by_updated_at_desc rows = rows.
Proof.
  induction 1 as [| row rest Hrest IH Hhd]; [reflexivity|].
  cbn [order_by_updated_at_desc foldr].
  change (foldr insert_newer_first [] rest) with (order_by_updated_at_desc rest).
  rewrite IH. destruct Hhd as [| other rest' Hn]; cbn [insert_newer_first].
  - reflexivity.
  - destruct (decide (newer_first row other)); [reflexivity | contradiction].
Qed.

Lemma elem_of_fetchall (db : database) (r : ResultDict.t) :
  r ∈ fetchall db
  <-> exists row, row ∈ prices db /\ selected row = true /\ r = to_dict row.
Proof.
  unfold fetchall. rewrite list_elem_of_fmap. split.
  - intros (row & -> & Hin). rewrite order_by_updated_at_desc_Permutation in Hin.
    apply list_elem_of_In, filter_In in Hin as [Hin Hsel].
    exists row. split; [apply list_elem_of_In; exact Hin|]. split; [exact Hsel | reflexivity].
  - intros (row & Hin & Hsel & ->). exists row. split; [reflexivity|].
    rewrite order_by_updated_at_desc_Permutation. apply list_elem_of_In, filter_In.
    split; [apply list_elem_of_In; exact Hin | exact Hsel].
Qed.

(** *** What a run can change *)

Lemma submit_group_logs (contract_id : string) (group : list ParsedPrice.t)
    (db : database) :
  feed_bulk_from_db_logs (submit_group contract_id group db)
  = feed_bulk_from_db_logs db ++ attempt_log contract_id group.
Proof.
  unfold submit_group, attempt_log. destruct group as [| p rest].
  - rewrite app_nil_r. reflexivity.
  - destruct (run_cli (submission_command contract_id (p :: rest))) as [ok out].
    reflexivity.
Qed.

Lemma attempt_log_length (contract_id : string) (group : list ParsedPrice.t) :
  (length (attempt_log contract_id group) <= 1)%nat.
Proof. unfold attempt_log. destruct group; cbn; lia. Qed.

(** The effect of [add_prices_to_blockchain] once the grouping loop has
    returned. *)
Lemma add_prices_to_blockchain_grouped (prices_in : list ResultDict.t)
    (db : database) (xlm usd : list ParsedPrice.t) (ss : gmap Z (list string)) :
  group_prices prices_in [] [] ∅ = Return (xlm, usd, ss) ->
  exists db',
    add_prices_to_blockchain prices_in db = Return db'
    /\ prices db'
       = (fun row : Row.t =>
            if bool_decide (Row.symbol row ∈ default [] (ss !! Row.source row))
            then Row.set_added_to_blockchain row else row) <$> prices db
    /\ feed_bulk_from_db_logs db'
       = feed_bulk_from_db_logs db
           ++ attempt_log TESTNET_CONTRACT_XLM xlm
           ++ attempt_log TESTNET_CONTRACT_USD usd.
Proof.
  intros Hg. unfold add_prices_to_blockchain. rewrite Hg. cbn [bind].
  eexists. split; [reflexivity|].
  destruct (mark_all_spec ss
              (submit_group TESTNET_CONTRACT_USD usd
                 (submit_group TESTNET_CONTRACT_XLM xlm db))) as [-> ->].
  rewrite !submit_group_prices, !submit_group_logs, <- app_assoc.
  split; reflexivity.
Qed.

(** X4: Every submission attempt is logged: one entry per non-empty group, the
    XLM group first, with the command of the group and the success flag the
    CLI child reported (true exactly when it exited with status 0). *)
Theorem every_attempt_is_logged (prices_in : list ResultDict.t) (db : database)
    (xlm usd : list ParsedPrice.t) (ss : gmap Z (list string)) :
  group_prices prices_in [] [] ∅ = Return (xlm, usd, ss) ->
  exists db',
    add_prices_to_blockchain prices_in db = Return db'
    /\ feed_bulk_from_db_logs db'
       = feed_bulk_from_db_logs db
           ++ attempt_log TESTNET_CONTRACT_XLM xlm
           ++ attempt_log TESTNET_CONTRACT_USD usd
    /\ (xlm = [] -> attempt_log TESTNET_CONTRACT_XLM xlm = [])
    /\ (usd = [] -> attempt_log TESTNET_CONTRACT_USD usd = [])
    /\ (forall entry,
          entry ∈ attempt_log TESTNET_CONTRACT_XLM xlm
                    ++ attempt_log TESTNET_CONTRACT_USD usd ->
          (success entry = true
           <-> exists out, check_output ("./cli " +:+ command entry) = inl out)).
Proof.
  intros Hg.
  destruct (add_prices_to_blockchain_grouped prices_in db xlm usd ss Hg)
    as (db' & Hrun & _ & Hlogs).
  exists db'. split; [exact Hrun|]. split; [exact Hlogs|].
  split; [intros ->; reflexivity|]. split; [intros ->; reflexivity|].
  assert (Hone : forall contract_id group entry,
             entry ∈ attempt_log contract_id group ->
             (success entry = true
              <-> exists out, check_output ("./cli " +:+ command entry) = inl out)).
  { intros contract_id group entry Hin. unfold attempt_log in Hin.
    destruct group as [| p rest]; [inversion Hin|].
    apply list_elem_of_singleton in Hin. subst entry. cbn [success command].
    unfold run_cli.
    destruct (check_output ("./cli " +:+ submission_command contract_id (p :: rest)))
      as [out | out]; cbn [fst].
    - split; [intros _; exists out; reflexivity | reflexivity].
    - split; [discriminate | intros [out' H]; discriminate H]. }
  intros entry Hin. apply elem_of_app in Hin as [Hin | Hin]; eapply Hone; exact Hin.
Qed.

(** X5: A run that returns has changed nothing in the prices table but
    [added_to_blockchain] flags, from 0 to 1: no row is added, removed,
    reordered or unmarked; and it has only appended to the log, at most two
    entries. *)
Theorem run_only_sets_flags (clock : nat -> Z) (db db' : database) :
  read_prices_from_db clock db = Return db' ->
  Forall2 same_or_marked (prices db) (prices db')
  /\ exists new_entries,
       feed_bulk_from_db_logs db' = feed_bulk_from_db_logs db ++ new_entries
       /\ (length new_entries <= 2)%nat.
Proof.
  unfold read_prices_from_db. intros Hrun.
  destruct (collect_prices clock db) as [kept | e]; [| discriminate].
  cbn [bind] in Hrun. destruct kept as [| price rest].
  - injection Hrun as <-. split.
    + apply Forall_Forall2_diag, Forall_forall. intros row _. left. reflexivity.
    + exists []. rewrite app_nil_r. split; [reflexivity | cbn; lia].
  - destruct (group_prices (price :: rest) [] [] ∅) as [[[xlm usd] ss] | e] eqn:Hg.
    + destruct (add_prices_to_blockchain_grouped (price :: rest) db xlm usd ss Hg)
        as (db1 & Hrun1 & Hprices & Hlogs).
      rewrite Hrun1 in Hrun. injection Hrun as <-. split.
      * rewrite Hprices. apply Forall2_fmap_r.
        apply Forall_Forall2_diag, Forall_forall. intros row _. cbn [compose].
        destruct (bool_decide _); [right | left]; reflexivity.
      * eexists. split; [exact Hlogs|]. rewrite length_app.
        pose proof (attempt_log_length TESTNET_CONTRACT_XLM xlm).
        pose proof (attempt_log_length TESTNET_CONTRACT_USD usd). lia.
    + unfold add_prices_to_blockchain in Hrun. rewrite Hg in Hrun. discriminate.
Qed.

(** *** The dictionary source_symbols *)

Lemma group_prices_symbols (prices_in : list ResultDict.t) :
  forall xlm usd ss groups,
    group_prices prices_in xlm usd ss = Return groups ->
    groups.2 = record_symbols prices_in ss.
Proof.
  induction prices_in as [| price rest IH]; intros xlm usd ss groups Hg.
  - cbn in Hg. injection Hg as <-. reflexivity.
  - rewrite record_symbols_cons. cbn [group_prices] in Hg.
    destruct (parsed_price price) as [pp |]; [| discriminate].
    cbn [bind] in Hg.
    destruct (decide (ResultDict.sell_asset price = "XLM")); [now apply IH in Hg|].
    destruct (decide (ResultDict.sell_asset price = "USD")); [now apply IH in Hg|].
    discriminate.
Qed.

Lemma record_symbols_lookup (prices_in : list ResultDict.t) :
  forall (ss : gmap Z (list string)) (src : Z),
    record_symbols prices_in ss !! src
    = if decide (symbols_of src prices_in = []) then ss !! src
      else Some (default [] (ss !! src) ++ symbols_of src prices_in).
Proof.
  induction prices_in as [| price rest IH]; intros ss src.
  - reflexivity.
  - rewrite record_symbols_cons, IH. unfold symbols_of.
    destruct (decide (ResultDict.source price = src)) as [Hs | Hs].
    + rewrite filter_cons_True by exact Hs. rewrite fmap_cons.
      rewrite Hs, lookup_insert_eq. cbn [from_option id].
      destruct (decide (_ :: _ = [])) as [Hnil | _]; [discriminate Hnil|].
      destruct (decide (ResultDict.symbol <$>
                          filter (fun p => ResultDict.source p = src) rest = []))
        as [-> | Hne].
      * reflexivity.
      * rewrite <- app_assoc. reflexivity.
    + rewrite filter_cons_False by exact Hs.
      rewrite lookup_insert_ne by exact Hs. reflexivity.
Qed.

(** X6: When the grouping loop returns, [source_symbols] has an entry for
    exactly the sources that occur among the rows, and the entry lists the
    symbols of that source's rows in input order; so no source is marked
    with an empty symbol list. *)
Theorem source_symbols_by_source (prices_in : list ResultDict.t)
    (xlm usd : list ParsedPrice.t) (ss : gmap Z (list string)) :
  group_prices prices_in [] [] ∅ = Return (xlm, usd, ss) ->
  forall src,
    ss !! src = (if decide (symbols_of src prices_in = []) then None
                 else Some (symbols_of src prices_in))
    /\ (forall symbols, ss !! src = Some symbols -> symbols <> []).
Proof.
  intros Hg src. apply group_prices_symbols in Hg. cbn [snd] in Hg. subst ss.
  rewrite record_symbols_lookup, lookup_empty. cbn [from_option id app].
  split; [reflexivity|].
  intros symbols. destruct (decide (symbols_of src prices_in = [])) as [| Hne];
    [discriminate|]. intros [= <-]. exact Hne.
Qed.

(** *** Marking *)

(** X7: Marking is idempotent, and two markings commute: the table after the
    loop over [source_symbols.items()] does not depend on the order in which
    the sources are visited. *)
Theorem marking_idempotent_and_commutes (db : database)
    (source1 source2 : Z) (symbols1 symbols2 : list string) :
  mark_symbols_as_added_to_blockchain source1 symbols1
    (mark_symbols_as_added_to_blockchain source1 symbols1 db)
  = mark_symbols_as_added_to_blockchain source1 symbols1 db
  /\ mark_symbols_as_added_to_blockchain source1 symbols1
       (mark_symbols_as_added_to_blockchain source2 symbols2 db)
     = mark_symbols_as_added_to_blockchain source2 symbols2
         (mark_symbols_as_added_to_blockchain source1 symbols1 db).
Proof.
  unfold mark_symbols_as_added_to_blockchain. cbn [prices feed_bulk_from_db_logs].
  split; f_equal; rewrite <- !list_fmap_compose; apply list_fmap_ext;
    intros i row _; cbn [compose];
    repeat (match goal with
            | |- context [bool_decide ?P] => destruct (bool_decide P) eqn:?
            end; cbn [Row.set_added_to_blockchain Row.source Row.symbol] in *;
            try congruence);
    reflexivity.
Qed.

(** *** Errors of the grouping loop *)

(** X8: A row without the key [normalized_timestamp] makes
    [add_prices_to_blockchain] raise [KeyError], whatever its sell_asset,
    when the rows before it are sound; nothing is submitted or marked. *)
Theorem missing_timestamp_raises (before : list ResultDict.t) (bad : ResultDict.t)
    (after : list ResultDict.t) (db : database) :
  Forall has_timestamp before -> Forall supported before ->
  ResultDict.normalized_timestamp bad = None ->
  add_prices_to_blockchain (before ++ bad :: after) db
  = Raise (KeyError "normalized_timestamp").
Proof.
  intros Hts Hsup Hbad. unfold add_prices_to_blockchain.
  assert (Hg : forall xlm usd ss,
             group_prices (before ++ bad :: after) xlm usd ss
             = Raise (KeyError "normalized_timestamp")).
  { induction before as [| price rest IH]; intros xlm usd ss.
    - cbn [app group_prices]. unfold parsed_price. rewrite Hbad. reflexivity.
    - apply Forall_cons in Hts as [Hprice Hts]. apply Forall_cons in Hsup as [Hs Hsup].
      destruct (parsed_price_has_timestamp price Hprice) as [parsed Hparsed].
      cbn [app group_prices]. rewrite Hparsed. cbn [bind].
      destruct (decide (ResultDict.sell_asset price = "XLM")); [now apply IH|].
      destruct (decide (ResultDict.sell_asset price = "USD")); [now apply IH|].
      destruct Hs as [Hs | Hs]; contradiction. }
  rewrite Hg. reflexivity.
Qed.

End FeederFurther.

(** *** Two runs in a row *)

Section FeederDrain.
Context `{env : FeederEnv}.

Lemma keep_first_covers (rows : list (Z * ResultDict.t)) :
  forall (seen : list (Z * string)) (tr : Z * ResultDict.t),
    tr ∈ rows ->
    key tr.2 ∈ seen
    \/ key tr.2 ∈ (fun x : Z * ResultDict.t => key x.2) <$> keep_first seen rows.
Proof.
  induction rows as [| x rest IH]; intros seen tr Hin; [inversion Hin|].
  cbn [keep_first]. apply elem_of_cons in Hin as [-> | Hin].
  - destruct (decide (key x.2 ∈ seen)) as [Hs | Hs]; [left; exact Hs|].
    right. rewrite fmap_cons. left.
  - destruct (decide (key x.2 ∈ seen)) as [Hs | Hs]; [now apply IH|].
    destruct (IH (seen ++ [key x.2]) tr Hin) as [H | H].
    + apply elem_of_app in H as [H | H]; [left; exact H|].
      apply list_elem_of_singleton in H. right. rewrite fmap_cons, H. left.
    + right. rewrite fmap_cons. right. exact H.
Qed.

Lemma run_marks_kept (clock : nat -> Z) (db : database) (kept : list ResultDict.t) :
  collect_prices clock db = Return kept ->
  Forall has_timestamp kept -> Forall supported kept ->
  exists db',
    read_prices_from_db clock db = Return db'
    /\ prices db' = mark_keys (key <$> kept) <$> prices db.
Proof.
  intros Hc Hts Hsup. unfold read_prices_from_db. rewrite Hc. cbn [bind].
  destruct kept as [| price rest] eqn:Ekept.
  - exists db. split; [reflexivity|]. cbn [fmap list_fmap].
    symmetry. apply mark_keys_nil.
  - apply add_prices_to_blockchain_marks; assumption.
Qed.

(** X9: With the clock on a multiple of the resolution throughout and all
    fetched rows quoted in XLM or USD, one run empties the queue: the next
    read fetches nothing, and a further run, at any time, returns the
    database as it is. *)
Theorem aligned_run_drains (clock : nat -> Z) (db : database) :
  (forall i, float_exact_range (clock i)) ->
  (forall i, aligned (clock i)) ->
  Forall supported (fetchall db) ->
  exists db',
    read_prices_from_db clock db = Return db'
    /\ fetchall db' = []
    /\ forall clock', read_prices_from_db clock' db' = Return db'.
Proof.
  intros Hrange Hal Hsup.
  set (kept := stamp <$> keep_first [] (timed clock 0 (fetchall db))).
  assert (Hc : collect_prices clock db = Return kept).
  { rewrite collect_prices_spec by exact Hrange.
    rewrite filter_all by now apply timed_all_aligned. reflexivity. }
  assert (Hfrom : forall price, price ∈ kept ->
             exists tr, price = stamp tr /\ tr.2 ∈ fetchall db).
  { intros price Hin. apply list_elem_of_fmap in Hin as ([now r] & -> & Hin).
    apply keep_first_subset in Hin as [Hin _].
    apply elem_of_timed in Hin as (i & Hi & _).
    exists (now, r). split; [reflexivity|].
    apply list_elem_of_lookup. exists i. exact Hi. }
  assert (Hts : Forall has_timestamp kept).
  { apply Forall_forall. intros price Hin.
    destruct (Hfrom price Hin) as (tr & -> & _). eexists. reflexivity. }
  assert (Hsk : Forall supported kept).
  { apply Forall_forall. intros price Hin.
    destruct (Hfrom price Hin) as (tr & -> & Htr).
    rewrite Forall_forall in Hsup. exact (Hsup _ Htr). }
  destruct (run_marks_kept clock db kept Hc Hts Hsk) as (db' & Hrun & Hprices).
  exists db'. split; [exact Hrun|].
  assert (Hnil : fetchall db' = []).
  { destruct (fetchall db') as [| r rest] eqn:Hf; [reflexivity|]. exfalso.
    assert (Hr : r ∈ fetchall db') by (rewrite Hf; left).
    apply elem_of_fetchall in Hr as (row' & Hrow' & Hsel & ->).
    rewrite Hprices in Hrow'.
    apply list_elem_of_fmap in Hrow' as (row & -> & Hrow).
    unfold mark_keys in Hsel.
    destruct (bool_decide (row_key row ∈ key <$> kept)) eqn:Hb.
    - unfold selected in Hsel. cbn in Hsel. rewrite andb_false_r in Hsel.
      discriminate.
    - apply bool_decide_eq_false in Hb. apply Hb.
      assert (Hd : to_dict row ∈ fetchall db).
      { apply elem_of_fetchall. exists row. repeat split; assumption. }
      apply list_elem_of_lookup in Hd as [i Hi].
      assert (Ht : (clock (0 + i)%nat, to_dict row) ∈ timed clock 0 (fetchall db)).
      { apply elem_of_timed. exists i. split; [exact Hi | reflexivity]. }
      destruct (keep_first_covers _ [] _ Ht) as [H | H]; [inversion H|].
      unfold kept. rewrite <- list_fmap_compose. exact H. }
  split; [exact Hnil|].
  intros clock'. unfold read_prices_from_db, collect_prices. rewrite Hnil.
  reflexivity.
Qed.

End FeederDrain.

(** *** Concrete runs *)

Lemma every_attempt_is_logged_witness :
  group_prices mixed_prices [] [] ∅
  = Return ([ {| ParsedPrice.source := 1; ParsedPrice.asset_type := "other";
                 ParsedPrice.asset := "BTC"; ParsedPrice.price := "1.00";
                 ParsedPrice.timestamp := 1200 |};
               {| ParsedPrice.source := 1; ParsedPrice.asset_type := "other";
                  ParsedPrice.asset := "BTC"; ParsedPrice.price := "1.00";
                  ParsedPrice.timestamp := 1200 |} ],
            [ {| ParsedPrice.source := 1; ParsedPrice.asset_type := "other";
                 ParsedPrice.asset := "BTC"; ParsedPrice.price := "1.00";
                 ParsedPrice.timestamp := 1200 |} ],
            {[ 1 := ["A"; "B"; "C"] ]})
  /\ exists db',
       @add_prices_to_blockchain failing_env mixed_prices db_one = Return db'
       /\ length (feed_bulk_from_db_logs db') = 2%nat.
Proof.
  assert (Hg : group_prices mixed_prices [] [] ∅
               = Return ([ {| ParsedPrice.source := 1; ParsedPrice.asset_type := "other";
                              ParsedPrice.asset := "BTC"; ParsedPrice.price := "1.00";
                              ParsedPrice.timestamp := 1200 |};
                            {| ParsedPrice.source := 1; ParsedPrice.asset_type := "other";
                               ParsedPrice.asset := "BTC"; ParsedPrice.price := "1.00";
                               ParsedPrice.timestamp := 1200 |} ],
                         [ {| ParsedPrice.source := 1; ParsedPrice.asset_type := "other";
                              ParsedPrice.asset := "BTC"; ParsedPrice.price := "1.00";
                              ParsedPrice.timestamp := 1200 |} ],
                         {[ 1 := ["A"; "B"; "C"] ]}))
    by (vm_compute; reflexivity).
  split; [exact Hg|].
  destruct (@every_attempt_is_logged failing_env mixed_prices db_one _ _ _ Hg)
    as (db' & Hrun & Hlogs & _).
  exists db'. split; [exact Hrun|]. rewrite Hlogs. reflexivity.
Defined.

Lemma run_only_sets_flags_witness :
  @read_prices_from_db failing_env clock_1200 db_one
  = Return
      {| prices := [Row.set_added_to_blockchain (price_row 1 100 "A" "XLM")];
         feed_bulk_from_db_logs :=
           [ {| command := "--oracle-contract-id CXLM oracle add_prices_base64 [...]";
                output := "Error: transaction failed";
                success := false |} ] |}
  /\ Forall2 same_or_marked (prices db_one)
       [Row.set_added_to_blockchain (price_row 1 100 "A" "XLM")].
Proof.
  split; [exact failed_run|].
  exact (proj1 (@run_only_sets_flags failing_env clock_1200 db_one _ failed_run)).
Defined.

Lemma source_symbols_by_source_witness :
  group_prices mixed_prices [] [] ∅
  = Return ([ {| ParsedPrice.source := 1; ParsedPrice.asset_type := "other";
                 ParsedPrice.asset := "BTC"; ParsedPrice.price := "1.00";
                 ParsedPrice.timestamp := 1200 |};
               {| ParsedPrice.source := 1; ParsedPrice.asset_type := "other";
                  ParsedPrice.asset := "BTC"; ParsedPrice.price := "1.00";
                  ParsedPrice.timestamp := 1200 |} ],
            [ {| ParsedPrice.source := 1; ParsedPrice.asset_type := "other";
                 ParsedPrice.asset := "BTC"; ParsedPrice.price := "1.00";
                 ParsedPrice.timestamp := 1200 |} ],
            {[ 1 := ["A"; "B"; "C"] ]})
  /\ forall symbols,
       ({[ 1 := ["A"; "B"; "C"] ]} : gmap Z (list string)) !! 1 = Some symbols ->
       symbols <> [].
Proof.
  assert (Hg : group_prices mixed_prices [] [] ∅
               = Return ([ {| ParsedPrice.source := 1; ParsedPrice.asset_type := "other";
                              ParsedPrice.asset := "BTC"; ParsedPrice.price := "1.00";
                              ParsedPrice.timestamp := 1200 |};
                            {| ParsedPrice.source := 1; ParsedPrice.asset_type := "other";
                               ParsedPrice.asset := "BTC"; ParsedPrice.price := "1.00";
                               ParsedPrice.timestamp := 1200 |} ],
                         [ {| ParsedPrice.source := 1; ParsedPrice.asset_type := "other";
                              ParsedPrice.asset := "BTC"; ParsedPrice.price := "1.00";
                              ParsedPrice.timestamp := 1200 |} ],
                         {[ 1 := ["A"; "B"; "C"] ]}))
    by (vm_compute; reflexivity).
  split; [exact Hg|].
  exact (proj2 (source_symbols_by_source mixed_prices _ _ _ Hg 1)).
Defined.

Lemma missing_timestamp_raises_witness :
  Forall has_timestamp [stamp (1200, to_dict (price_row 1 100 "A" "XLM"))]
  /\ Forall supported [stamp (1200, to_dict (price_row 1 100 "A" "XLM"))]
  /\ ResultDict.normalized_timestamp (to_dict (price_row 2 100 "B" "EUR")) = None
  /\ @add_prices_to_blockchain failing_env
       ([stamp (1200, to_dict (price_row 1 100 "A" "XLM"))]
          ++ to_dict (price_row 2 100 "B" "EUR") :: []) db_one
     = Raise (KeyError "normalized_timestamp").
Proof.
  assert (H1 : Forall has_timestamp [stamp (1200, to_dict (price_row 1 100 "A" "XLM"))])
    by (repeat constructor; eexists; reflexivity).
  assert (H2 : Forall supported [stamp (1200, to_dict (price_row 1 100 "A" "XLM"))])
    by (constructor; [left; reflexivity | constructor]).
  split; [exact H1|]. split; [exact H2|]. split; [reflexivity|].
  exact (@missing_timestamp_raises failing_env _ (to_dict (price_row 2 100 "B" "EUR")) []
           db_one H1 H2 eq_refl).
Defined.

Lemma aligned_run_drains_witness :
  (forall i, float_exact_range (clock_1200 i))
  /\ (forall i, aligned (clock_1200 i))
  /\ Forall supported (fetchall db_twins)
  /\ exists db',
       @read_prices_from_db failing_env clock_1200 db_twins = Return db'
       /\ fetchall db' = []
       /\ forall clock', @read_prices_from_db failing_env clock' db' = Return db'.
Proof.
  assert (H2 : forall i, aligned (clock_1200 i)) by (intros i; reflexivity).
  assert (H3 : Forall supported (fetchall db_twins))
    by (vm_compute; repeat constructor).
  split; [exact clock_1200_in_range|]. split; [exact H2|]. split; [exact H3|].
  exact (@aligned_run_drains failing_env clock_1200 db_twins
           clock_1200_in_range H2 H3).
Defined.

(** ** The example client: decoding contract results *)

Section Decoding.
Import PriceUpDownOutput.

Lemma lor_shiftl_64 (high low : Z) :
  0 <= low < 2 ^ 64 ->
  Z.lor (Z.shiftl high 64) low = high * 2 ^ 64 + low.
Proof.
  intros Hlow. rewrite Z.shiftl_mul_pow2 by lia.
  symmetry. apply Z.add_nocarry_lor.
  apply Z.bits_inj'. intros n Hn. rewrite Z.land_spec, Z.bits_0.
  destruct (Z_lt_ge_dec n 64) as [Hlt | Hge].
  - rewrite Z.mul_pow2_bits_low by lia. reflexivity.
  - destruct (Z.eq_dec low 0) as [-> | Hnz].
    + rewrite Z.bits_0. apply andb_false_r.
    + rewrite (Z.bits_above_log2 low n); [apply andb_false_r | lia |].
      assert (Z.log2 low < 64) by (apply Z.log2_lt_pow2; lia). lia.
Qed.

(** X10: The two halves of a 128-bit integer are put together as
    [high * 2^64 + low]: a signed [high] gives the signed value in
    [-2^127, 2^127), an unsigned one the value in [0, 2^128), and the halves
    of any such value give the value back. *)
Theorem parse_128_bit_integers (high low : Z) :
  0 <= low < 2 ^ 64 ->
  parse_sc_val (SCV_I128 high low) = Done (PInt (high * 2 ^ 64 + low))
  /\ parse_sc_val (SCV_U128 high low) = Done (PInt (high * 2 ^ 64 + low))
  /\ (- 2 ^ 63 <= high < 2 ^ 63 -> - 2 ^ 127 <= high * 2 ^ 64 + low < 2 ^ 127)
  /\ (0 <= high < 2 ^ 64 -> 0 <= high * 2 ^ 64 + low < 2 ^ 128)
  /\ (forall v, high = v / 2 ^ 64 -> low = v mod 2 ^ 64 ->
                parse_sc_val (SCV_I128 high low) = Done (PInt v)).
Proof.
  intros Hlow. cbn [parse_sc_val]. rewrite lor_shiftl_64 by exact Hlow.
  split; [reflexivity|]. split; [reflexivity|].
  split; [lia|]. split; [lia|].
  intros v -> ->. do 2 f_equal.
  pose proof (Z.div_mod v (2 ^ 64) ltac:(lia)). lia.
Qed.

Lemma parse_128_bit_integers_witness :
  0 <= 2 ^ 64 - 5 < 2 ^ 64
  /\ parse_sc_val (SCV_I128 (-1) (2 ^ 64 - 5)) = Done (PInt (-5)).
Proof.
  assert (H : 0 <= 2 ^ 64 - 5 < 2 ^ 64) by lia.
  split; [exact H|].
  exact (proj2 (proj2 (proj2 (proj2 (parse_128_bit_integers (-1) (2 ^ 64 - 5) H))))
           (-5) eq_refl eq_refl).
Defined.

Lemma parse_sc_val_vec (vals : list sc_val) :
  parse_sc_val (SCV_VEC vals) = of_list (parse_sc_vec vals).
Proof.
  unfold parse_sc_vec. cbn [parse_sc_val].
  match goal with
  | |- ?loop vals [] = _ =>
      enough (H : forall vec, loop vals vec = of_list (parse_sc_vec_from vals vec))
        by apply H
  end.
  induction vals as [| val rest IH]; intros vec; [reflexivity|].
  cbn [parse_sc_vec_from]. destruct (parse_sc_val val) as [value | e];
    [apply IH | reflexivity].
Qed.

Lemma parse_sc_val_map (entries : list (sc_val * sc_val)) :
  parse_sc_val (SCV_MAP entries) = of_dict (parse_sc_map entries).
Proof.
  unfold parse_sc_map. cbn [parse_sc_val].
  match goal with
  | |- ?loop entries [] = _ =>
      enough (H : forall data,
                 loop entries data = of_dict (parse_sc_map_from entries data))
        by apply H
  end.
  induction entries as [| [k val] rest IH]; intros data; [reflexivity|].
  cbn [parse_sc_map_from]. destruct k; try reflexivity.
  destruct (parse_sc_val val) as [value | e]; [apply IH | reflexivity].
Qed.

Lemma parse_sc_vec_from_done (vals : list sc_val) :
  forall vec out,
    parse_sc_vec_from vals vec = Done out
    <-> exists parsed,
          out = vec ++ parsed
          /\ Forall2 (fun val value => parse_sc_val val = Done value) vals parsed.
Proof.
  induction vals as [| val rest IH]; intros vec out; cbn [parse_sc_vec_from].
  - split.
    + intros [= <-]. exists []. rewrite app_nil_r. split; [reflexivity | constructor].
    + intros (parsed & -> & H). inversion H. rewrite app_nil_r. reflexivity.
  - destruct (parse_sc_val val) as [value | e] eqn:Hval.
    + rewrite IH. split.
      * intros (parsed & -> & H). exists (value :: parsed).
        rewrite <- app_assoc. split; [reflexivity | constructor; assumption].
      * intros (parsed & -> & H). inversion H as [| ? value' ? parsed' Hv Hrest];
          subst. rewrite Hval in Hv. injection Hv as <-.
        exists parsed'. rewrite <- app_assoc. split; [reflexivity | exact Hrest].
    + split; [discriminate|].
      intros (parsed & _ & H). inversion H as [| ? value' ? parsed' Hv Hrest]; subst.
      rewrite Hval in Hv. discriminate.
Qed.

Lemma parse_sc_vec_from_failed (before : list sc_val) (bad : sc_val)
    (after : list sc_val) (e : py_error) :
  Forall (fun val => exists value, parse_sc_val val = Done value) before ->
  parse_sc_val bad = Failed e ->
  forall vec, parse_sc_vec_from (before ++ bad :: after) vec = Failed e.
Proof.
  intros Hbefore Hbad. induction Hbefore as [| val rest [value Hval] _ IH];
    intros vec; cbn [app parse_sc_vec_from].
  - rewrite Hbad. reflexivity.
  - rewrite Hval. apply IH.
Qed.

(** X11: [parse_sc_vec] parses element by element: it returns the parsed
    elements in order, one per element, exactly when every element parses;
    otherwise it raises the error of the first element that does not, as does
    [parse_sc_val] on the vector.  So a vector holding a boolean cannot be
    decoded. *)
Theorem parse_sc_vec_elementwise (vals : list sc_val) :
  (forall out,
      parse_sc_vec vals = Done out
      <-> Forall2 (fun val value => parse_sc_val val = Done value) vals out)
  /\ (forall before bad after e,
        vals = before ++ bad :: after ->
        Forall (fun val => exists value, parse_sc_val val = Done value) before ->
        parse_sc_val bad = Failed e ->
        parse_sc_vec vals = Failed e
        /\ parse_sc_val (SCV_VEC vals) = Failed e)
  /\ (forall before b after,
        vals = before ++ SCV_BOOL b :: after ->
        Forall (fun val => exists value, parse_sc_val val = Done value) before ->
        parse_sc_val (SCV_VEC vals) = Failed could_not_parse).
Proof.
  assert (Hfail : forall before bad after e,
             vals = before ++ bad :: after ->
             Forall (fun val => exists value, parse_sc_val val = Done value) before ->
             parse_sc_val bad = Failed e ->
             parse_sc_vec vals = Failed e
             /\ parse_sc_val (SCV_VEC vals) = Failed e).
  { intros before bad after e -> Hbefore Hbad.
    assert (H : parse_sc_vec (before ++ bad :: after) = Failed e)
      by (apply parse_sc_vec_from_failed; assumption).
    split; [exact H|]. rewrite parse_sc_val_vec, H. reflexivity. }
  split; [| split].
  - intros out. unfold parse_sc_vec. rewrite parse_sc_vec_from_done. split.
    + intros (parsed & -> & H). exact H.
    + intros H. exists out. split; [reflexivity | exact H].
  - exact Hfail.
  - intros before b after Hvals Hbefore.
    exact (proj2 (Hfail before (SCV_BOOL b) after could_not_parse Hvals Hbefore eq_refl)).
Qed.

Lemma parse_sc_vec_elementwise_witness :
  [SCV_U32 7; SCV_BOOL true] = [SCV_U32 7] ++ SCV_BOOL true :: []
  /\ Forall (fun val => exists value, parse_sc_val val = Done value) [SCV_U32 7]
  /\ parse_sc_val (SCV_VEC [SCV_U32 7; SCV_BOOL true]) = Failed could_not_parse.
Proof.
  assert (H : Forall (fun val => exists value, parse_sc_val val = Done value) [SCV_U32 7])
    by (repeat constructor; eexists; reflexivity).
  split; [reflexivity|]. split; [exact H|].
  exact (proj2 (proj2 (parse_sc_vec_elementwise [SCV_U32 7; SCV_BOOL true]))
           [SCV_U32 7] true [] eq_refl H).
Defined.

Lemma dict_get_set {A : Type} (key key' : string) (value : A)
    (data : list (string * A)) :
  dict_get key' (dict_set key value data)
  = if decide (key = key') then Some value else dict_get key' data.
Proof.
  induction data as [| [k v] rest IH]; cbn [dict_set dict_get].
  - destruct (decide (key = key')); reflexivity.
  - destruct (decide (k = key)) as [-> | Hk]; cbn [dict_get].
    + destruct (decide (key = key')); reflexivity.
    + destruct (decide (k = key')) as [-> | Hk'].
      * rewrite decide_False by congruence. reflexivity.
      * exact IH.
Qed.

Lemma dict_set_keys {A : Type} (key : string) (value : A)
    (data : list (string * A)) (k : string) :
  k ∈ (dict_set key value data).*1 <-> k = key \/ k ∈ data.*1.
Proof.
  induction data as [| [k0 v0] rest IH]; cbn [dict_set].
  - cbn. rewrite list_elem_of_singleton, elem_of_nil. tauto.
  - destruct (decide (k0 = key)) as [-> | Hne]; cbn [fmap list_fmap fst].
    + rewrite !elem_of_cons. tauto.
    + rewrite !elem_of_cons, IH. tauto.
Qed.

Lemma dict_set_NoDup {A : Type} (key : string) (value : A)
    (data : list (string * A)) :
  NoDup data.*1 -> NoDup (dict_set key value data).*1.
Proof.
  induction data as [| [k0 v0] rest IH]; cbn [dict_set]; intros Hnd.
  - cbn. constructor; [apply not_elem_of_nil | constructor].
  - apply NoDup_cons in Hnd as [Hnin Hnd].
    destruct (decide (k0 = key)) as [-> | Hne]; cbn [fmap list_fmap fst].
    + constructor; assumption.
    + constructor; [| now apply IH].
      rewrite dict_set_keys. intros [H | H]; [congruence | contradiction].
Qed.

Lemma parse_sc_map_from_done (entries : list (sc_val * sc_val)) :
  forall data out,
    parse_sc_map_from entries data = Done out ->
    (NoDup data.*1 -> NoDup out.*1)
    /\ forall key,
         match last_entry key entries with
         | Some val => exists value, parse_sc_val val = Done value
                                     /\ dict_get key out = Some value
         | None => dict_get key out = dict_get key data
         end.
Proof.
  induction entries as [| [k val] rest IH]; intros data out Hp.
  - cbn in Hp. injection Hp as <-. split; [tauto | intros key; reflexivity].
  - cbn [parse_sc_map_from] in Hp.
    destruct k; try discriminate.
    destruct (parse_sc_val val) as [value | e] eqn:Hval; [| discriminate].
    destruct (IH _ _ Hp) as [Hnd Hget]. split.
    + intros H. apply Hnd. now apply dict_set_NoDup.
    + intros key. specialize (Hget key). cbn [last_entry].
      destruct (last_entry key rest) as [later |]; [exact Hget|].
      rewrite dict_get_set in Hget.
      destruct (decide (sc_symbol = key)) as [-> | Hne].
      * exists value. split; assumption.
      * exact Hget.
Qed.

(** X12: [parse_sc_map] builds a dictionary with one entry per symbol: under
    each symbol it holds the parsed value of the last map entry with that
    symbol, and nothing under a symbol that no entry has; a key that is not
    a symbol stops it with an [AttributeError]. *)
Theorem parse_sc_map_last_entry_wins (entries : list (sc_val * sc_val)) :
  (forall data,
      parse_sc_map entries = Done data ->
      NoDup data.*1
      /\ forall key,
           match last_entry key entries with
           | Some val => exists value, parse_sc_val val = Done value
                                       /\ dict_get key data = Some value
           | None => dict_get key data = None
           end)
  /\ (forall before k val after,
        entries = before ++ (k, val) :: after ->
        Forall (fun entry => exists sym value,
                               entry.1 = SCV_SYMBOL sym
                               /\ parse_sc_val entry.2 = Done value) before ->
        (forall sym, k <> SCV_SYMBOL sym) ->
        parse_sc_map entries = Failed no_symbol).
Proof.
  split.
  - intros data Hp. destruct (parse_sc_map_from_done entries [] data Hp) as [Hnd Hget].
    split; [apply Hnd; constructor | exact Hget].
  - intros before k val after -> Hbefore Hk. unfold parse_sc_map.
    generalize (@nil (string * py_data)).
    induction Hbefore as [| [k0 v0] rest (sym & value & Hsym & Hval) _ IH];
      intros data; cbn [app parse_sc_map_from].
    + destruct k; try reflexivity. exfalso. exact (Hk _ eq_refl).
    + cbn [fst snd] in Hsym, Hval. rewrite Hsym, Hval. apply IH.
Qed.

Lemma parse_sc_map_last_entry_wins_witness :
  parse_sc_map [(SCV_SYMBOL "a", SCV_U32 1); (SCV_SYMBOL "b", SCV_U32 2);
                (SCV_SYMBOL "a", SCV_U32 3)]
  = Done [("a", PInt 3); ("b", PInt 2)]
  /\ NoDup [("a", PInt 3); ("b", PInt 2)].*1.
Proof.
  assert (H : parse_sc_map [(SCV_SYMBOL "a", SCV_U32 1); (SCV_SYMBOL "b", SCV_U32 2);
                            (SCV_SYMBOL "a", SCV_U32 3)]
              = Done [("a", PInt 3); ("b", PInt 2)]) by reflexivity.
  split; [exact H|].
  exact (proj1 (proj1 (parse_sc_map_last_entry_wins _) _ H)).
Defined.

End Decoding.

(** ** The example client: commands *)

Section ExampleCommands.
Import PriceUpDownCli PriceUpDownOutput.
Context `{rendering : Rendering}.

(** X13: [invoke_contract_function] hands a transaction back to its caller
    only when it has settled as a success.  A send that is not answered
    PENDING raises [RuntimeError] before any poll or sleep, whatever the
    polls would answer, and a command that runs through [invoke_and_output]
    then ends with that error, exit status 1.  What the function does
    return is the hash of the send together with the first settled answer
    of the poll, whose status is SUCCESS; and after an accepted send and a
    poll that settles on a success it does return. *)
Theorem invoke_contract_function_returns_success_only (fuel : nat)
    (verbose : bool) (tx_xdr prepared_xdr : string)
    (send : SendTransactionResponse) (poll : nat -> GetTransactionResponse) :
  (send_status send <> PENDING ->
     (exists printed,
         invoke_contract_function fuel verbose tx_xdr prepared_xdr send poll
         = Some (printed, Raise (RuntimeError ("Failed to send transaction: "
                                                 +:+ send_repr send)))
         /\ sleeps printed = [])
     /\ forall meta,
         exists printed,
           invoke_and_output fuel verbose tx_xdr prepared_xdr send poll meta
           = Some (printed, Failed (Known (RuntimeError
                                             ("Failed to send transaction: "
                                                +:+ send_repr send))))
           /\ (fun out : run unit => attempt_exit_code out.2)
                <$> invoke_and_output fuel verbose tx_xdr prepared_xdr send poll meta
              = Some 1)
  /\ (forall printed tx_hash tx_data,
        invoke_contract_function fuel verbose tx_xdr prepared_xdr send poll
        = Some (printed, Return (tx_hash, tx_data)) ->
        send_status send = PENDING
        /\ tx_hash = hash send
        /\ status tx_data = SUCCESS
        /\ exists k, tx_data = poll k
                     /\ (forall j, (j < k)%nat -> status (poll j) = NOT_FOUND)
                     /\ sleeps printed = replicate k 3)
  /\ (send_status send = PENDING ->
      forall evs tx_data,
        wait_tx fuel verbose poll 0 = Some (evs, tx_data) ->
        status tx_data = SUCCESS ->
        exists printed,
          invoke_contract_function fuel verbose tx_xdr prepared_xdr send poll
          = Some (printed, Return (hash send, tx_data))).
Proof.
  split; [| split].
  - intros Hsend. split.
    + unfold invoke_contract_function, send_tx.
      destruct (decide (send_status send <> PENDING)) as [_ | Hn]; [| contradiction].
      eexists. split; [reflexivity|].
      rewrite !sleeps_app, !sleeps_vprint. reflexivity.
    + intros meta. unfold invoke_and_output, invoke_contract_function, send_tx.
      destruct (decide (send_status send <> PENDING)) as [_ | Hn]; [| contradiction].
      eexists. split; reflexivity.
  - intros printed tx_hash tx_data.
    unfold invoke_contract_function, send_tx.
    destruct (decide (send_status send <> PENDING)) as [Hn | Hp].
    { cbn [cli_bind]. discriminate. }
    destruct (wait_tx fuel verbose poll 0) as [[evs settled] |] eqn:Hwait;
      [| discriminate].
    cbn [cli_bind emit].
    destruct (decide (status settled <> SUCCESS)) as [Hf | Hs].
    { unfold abort. cbv beta iota zeta. discriminate. }
    intros Heq. injection Heq as <- <- <-.
    split; [destruct (send_status send); try reflexivity; exfalso; apply Hp; discriminate|].
    split; [reflexivity|].
    split; [destruct (status settled); try reflexivity; exfalso; apply Hs; discriminate|].
    destruct (wait_tx_returns_first verbose poll fuel 0 evs settled Hwait)
      as (k & Hk & _ & Hbefore & Hsl).
    exists k. split; [exact Hk|]. split; [exact Hbefore|].
    rewrite !sleeps_app, !sleeps_vprint, Hsl. cbn [sleeps omap app].
    rewrite ?app_nil_r. reflexivity.
  - intros Hsend evs tx_data Hwait Hs.
    unfold invoke_contract_function, send_tx. rewrite Hsend, Hwait.
    destruct (decide (PENDING <> PENDING)) as [Hne | _]; [contradiction|].
    cbn [cli_bind emit].
    destruct (decide (status tx_data <> SUCCESS)) as [Hn | _]; [contradiction|].
    eexists. reflexivity.
Qed.


(** X16: [deploy] without [-v].  If sending the upload raises, so does the
    command, at once.  A wasm upload that does not settle as a success, or
    yields an empty id, ends in the assertion error before any contract is
    created.  With a non-empty id, an exception of the creation transaction
    (as [append_create_contract_op] raises [ValueError] for an id that is
    not 32 bytes) ends the command with that exception and nothing printed;
    a creation that is sent but does not settle as a success ends the
    command silently and normally; only when both transactions succeed is
    the contract id printed, and nothing else. *)
Theorem deploy_outcomes (fuel : nat)
    (upload_send : SendTransactionResponse)
    (upload_poll : nat -> GetTransactionResponse)
    (upload_meta : option (attempt string))
    (create_tx : string -> result SendTransactionResponse)
    (create_poll : nat -> GetTransactionResponse)
    (create_meta : option (attempt string)) :
  (forall e,
      deploy fuel false (Raise e) upload_poll upload_meta
        create_tx create_poll create_meta
      = Some ([], Failed (Known e)))
  /\ forall waited uploaded,
      wait_tx fuel false upload_poll 0 = Some (waited, uploaded) ->
      ((status uploaded <> SUCCESS \/ upload_meta = Some (Done "")) ->
         deploy fuel false (Return upload_send) upload_poll upload_meta
           create_tx create_poll create_meta
         = Some (waited, Failed (AssertionError "wasm id should not be empty")))
      /\ (status uploaded = SUCCESS ->
          forall wasm_id,
            upload_meta = Some (Done wasm_id) -> wasm_id <> "" ->
            (forall e,
                create_tx wasm_id = Raise e ->
                deploy fuel false (Return upload_send) upload_poll upload_meta
                  create_tx create_poll create_meta
                = Some (waited, Failed (Known e)))
            /\ (forall create_send waited' created,
                  create_tx wasm_id = Return create_send ->
                  wait_tx fuel false create_poll 0 = Some (waited', created) ->
                  (status created <> SUCCESS ->
                     deploy fuel false (Return upload_send) upload_poll upload_meta
                       create_tx create_poll create_meta
                     = Some (waited ++ waited', Done tt))
                  /\ (forall contract_id,
                        status created = SUCCESS ->
                        create_meta = Some (Done contract_id) ->
                        deploy fuel false (Return upload_send) upload_poll
                          upload_meta create_tx create_poll create_meta
                        = Some (waited ++ waited' ++ [Print contract_id], Done tt)))).
Proof.
  split; [intros e; reflexivity|].
  intros waited uploaded Hwait. unfold deploy. rewrite Hwait. cbn [vprint app]. split.
  - intros [Hs | Hm].
    + destruct (decide (status uploaded = SUCCESS)) as [| _]; [contradiction|].
      rewrite ?app_nil_r. reflexivity.
    + subst upload_meta.
      destruct (decide (status uploaded = SUCCESS)); cbn [truthy];
        rewrite ?bool_decide_eq_true_2 by reflexivity; cbn [negb];
        rewrite ?app_nil_r; reflexivity.
  - intros Hs wasm_id -> Hne.
    destruct (decide (status uploaded = SUCCESS)) as [_ |]; [| contradiction].
    cbn [truthy]. rewrite bool_decide_eq_false_2 by exact Hne. cbn [negb].
    split.
    + intros e ->. rewrite ?app_nil_r. reflexivity.
    + intros create_send waited' created -> Hwait'. rewrite Hwait'. split.
      * intros Hc. destruct (decide (status created = SUCCESS)); [contradiction|].
        rewrite ?app_nil_r. reflexivity.
      * intros contract_id Hc ->.
        destruct (decide (status created = SUCCESS)); [| contradiction].
        rewrite ?app_nil_r, <- ?app_assoc. reflexivity.
Qed.

(** X15: [invoke_and_output] without [-v], once the send was accepted and the
    poll has settled: after a failed transaction only the error is printed,
    never "Output:"; after a success whose return value has an unknown type
    the type is reported and the command still ends with "Success!"; after a
    success without a result the assertion fails once "Output:" is out, and
    "Success!" is not printed. *)
Theorem invoke_and_output_outcomes (fuel : nat) (tx_xdr prepared_xdr : string)
    (send : SendTransactionResponse) (poll : nat -> GetTransactionResponse)
    (waited : list event) (tx_data : GetTransactionResponse) :
  send_status send = PENDING ->
  wait_tx fuel false poll 0 = Some (waited, tx_data) ->
  (status tx_data <> SUCCESS ->
     forall meta,
       invoke_and_output fuel false tx_xdr prepared_xdr send poll meta
       = Some (waited ++ print_error ("Error: " +:+ repr tx_data),
               Failed (Known (TyperExit 0))))
  /\ (status tx_data = SUCCESS ->
      (forall type_text,
          invoke_and_output fuel false tx_xdr prepared_xdr send poll
            (Some (Some (SCV_OTHER type_text)))
          = Some (waited ++ [Print "Output:";
                             Print ("Unexpected result type: " +:+ type_text);
                             Print "Horizon tx:";
                             Print (horizon_url +:+ "/transactions/" +:+ hash send);
                             Print "";
                             Print "Success!"],
                  Done tt))
      /\ invoke_and_output fuel false tx_xdr prepared_xdr send poll None
         = Some (waited ++ [Print "Output:"], Failed (AssertionError ""))).
Proof.
  intros Hsend Hwait. unfold invoke_and_output, invoke_contract_function, send_tx.
  rewrite Hsend, Hwait.
  destruct (decide (PENDING <> PENDING)) as [Hne | _]; [contradiction|].
  cbn [vprint app cli_bind emit]. split.
  - intros Hs meta.
    destruct (decide (status tx_data <> SUCCESS)) as [_ |]; [| contradiction].
    unfold abort, lift_cli. cbn [fst snd of_result run_bind].
    rewrite ?app_nil_r. reflexivity.
  - intros Hs.
    destruct (decide (status tx_data <> SUCCESS)) as [| _]; [contradiction|].
    unfold lift_cli. cbn [fst snd of_result run_bind].
    unfold output_tx_data, is_tx_success.
    rewrite bool_decide_eq_true_2 by exact Hs.
    cbn [fst snd of_result run_bind vprint app parse_tx_result].
    rewrite ?app_nil_r. split; [intros type_text|]; reflexivity.
Qed.

End ExampleCommands.

Lemma invoke_contract_function_returns_success_only_witness :
  PriceUpDownCli.invoke_contract_function 3 false "AAAA" "AAAB" pending_send third_poll
  = Some ([Sleep 3; Sleep 3], Return ("abc", third_poll 2))
  /\ PriceUpDownCli.status (third_poll 2) = PriceUpDownCli.SUCCESS
  /\ exists k, third_poll 2 = third_poll k
               /\ (forall j, (j < k)%nat ->
                      PriceUpDownCli.status (third_poll j) = PriceUpDownCli.NOT_FOUND)
               /\ sleeps [Sleep 3; Sleep 3] = replicate k 3.
Proof.
  assert (H : PriceUpDownCli.invoke_contract_function 3 false "AAAA" "AAAB"
                pending_send third_poll
              = Some ([Sleep 3; Sleep 3], Return ("abc", third_poll 2)))
    by reflexivity.
  split; [exact H|].
  destruct (proj1 (proj2 (@invoke_contract_function_returns_success_only
                            {| PriceUpDownOutput.str_data := fun _ => "<value>" |}
                            3 false "AAAA" "AAAB" pending_send third_poll))
              _ _ _ H) as (_ & _ & Hs & Hk).
  split; [exact Hs | exact Hk].
Defined.


Lemma deploy_outcomes_witness :
  PriceUpDownCli.wait_tx 3 false third_poll 0
  = Some ([Sleep 3; Sleep 3], third_poll 2)
  /\ PriceUpDownCli.wait_tx 3 false failed_poll 0 = Some ([], failed_poll 0)
  /\ create_for_32_bytes "c0ffee" = Raise (ValueError "wasm id is not 32 bytes")
  /\ PriceUpDownOutput.deploy 3 false (Return pending_send) third_poll
       (Some (Done "c0ffee")) create_for_32_bytes failed_poll None
     = Some ([Sleep 3; Sleep 3], Failed (Known (ValueError "wasm id is not 32 bytes")))
  /\ create_for_32_bytes wasm_id_32 = Return pending_send
  /\ PriceUpDownOutput.deploy 3 false (Return pending_send) third_poll
       (Some (Done wasm_id_32)) create_for_32_bytes failed_poll None
     = Some ([Sleep 3; Sleep 3] ++ [], Done tt).
Proof.
  assert (H1 : PriceUpDownCli.wait_tx 3 false third_poll 0
               = Some ([Sleep 3; Sleep 3], third_poll 2)) by reflexivity.
  assert (H2 : PriceUpDownCli.wait_tx 3 false failed_poll 0 = Some ([], failed_poll 0))
    by reflexivity.
  assert (H3 : create_for_32_bytes "c0ffee" = Raise (ValueError "wasm id is not 32 bytes"))
    by reflexivity.
  assert (H4 : create_for_32_bytes wasm_id_32 = Return pending_send) by reflexivity.
  split; [exact H1|]. split; [exact H2|]. split; [exact H3|].
  split; [| split; [exact H4|]].
  - refine (proj1 (proj2 (proj2 (deploy_outcomes 3 pending_send third_poll
                                   (Some (Done "c0ffee")) create_for_32_bytes
                                   failed_poll None) _ _ H1)
                     eq_refl "c0ffee" eq_refl _) _ H3).
    discriminate.
  - refine (proj1 (proj2 (proj2 (proj2 (deploy_outcomes 3 pending_send third_poll
                                          (Some (Done wasm_id_32)) create_for_32_bytes
                                          failed_poll None) _ _ H1)
                            eq_refl wasm_id_32 eq_refl _)
                     pending_send [] (failed_poll 0) H4 H2) _).
    + discriminate.
    + discriminate.
Defined.

(** ** The sep40 client: commands *)

Section Sep40Further.
Import Sep40Cli Sep40Commands.

(** X17: An RPC answer with a status above 299 is printed as an error and never
    as a result, and the process exits with 1; any other status with a
    readable body prints the body alone and exits with 0. *)
Theorem perform_rpc_request_outcomes (resp : response) :
  (299 < status_code resp ->
     perform_rpc_request resp
     = (print_error ("Failed to perform RPC request: status="
                       +:+ pretty (status_code resp) +:+ " response=" +:+ text resp),
        Raise (TyperExit 1))
     /\ process_exit_code (perform_rpc_request resp).2 = 1)
  /\ (status_code resp <= 299 ->
      forall body, json resp = Return body ->
        perform_rpc_request resp = ([Print body], Return tt)
        /\ process_exit_code (perform_rpc_request resp).2 = 0).
Proof.
  unfold perform_rpc_request. split.
  - intros H. replace (299 <? status_code resp) with true
      by (symmetry; apply Z.ltb_lt; exact H).
    split; reflexivity.
  - intros H body Hbody. replace (299 <? status_code resp) with false
      by (symmetry; apply Z.ltb_ge; exact H).
    rewrite Hbody. split; reflexivity.
Qed.

(** X18: [add_price] pings the heartbeat URL only after the price was added and
    the output printed, and only when a non-empty URL is configured; a
    failed [add_prices] prints nothing and pings nothing; without a URL the
    command prints an error line but still ends normally; and a failing
    heartbeat request fails the command although the price was added. *)
Theorem add_price_heartbeat
    (add_prices : list FeedBulkFromDb.ParsedPrice.t -> result (string * string))
    (http_get : string -> result unit)
    (horizon_url : string) (heartbeat_url : option string)
    (source : Z) (asset_type : AssetType) (asset price : string) (timestamp : Z) :
  let prices :=
    [ {| FeedBulkFromDb.ParsedPrice.source := source;
         FeedBulkFromDb.ParsedPrice.asset_type := AssetType_name asset_type;
         FeedBulkFromDb.ParsedPrice.asset := asset;
         FeedBulkFromDb.ParsedPrice.price := price;
         FeedBulkFromDb.ParsedPrice.timestamp := timestamp |} ] in
  let out := oracle_add_price add_prices http_get horizon_url heartbeat_url
               source asset_type asset price timestamp in
  (forall e, add_prices prices = Raise e -> out = ([], Raise e))
  /\ (forall url, HttpGet url ∈ out.1 ->
        heartbeat_url = Some url /\ url <> ""
        /\ exists tx_hash tx_data,
             add_prices prices = Return (tx_hash, tx_data)
             /\ out.1 = print_contract_output horizon_url tx_hash tx_data
                          ++ [HttpGet url]
             /\ out.2 = http_get url)
  /\ (forall tx_hash tx_data,
        add_prices prices = Return (tx_hash, tx_data) ->
        (truthy heartbeat_url = false ->
           out = (print_contract_output horizon_url tx_hash tx_data
                    ++ [Printed (Fore_RED +:+ "No ADD_PRICES_SUCCESS_HEARTBEAT_URL set"
                                   +:+ Style_RESET_ALL)],
                  Return tt))
        /\ (forall url, heartbeat_url = Some url -> url <> "" ->
              HttpGet url ∈ out.1)).
Proof.
  intros prices out. subst out. unfold oracle_add_price. fold prices.
  split; [| split].
  - intros e ->. reflexivity.
  - intros url Hin.
    destruct (add_prices prices) as [[tx_hash tx_data] | e]; [| inversion Hin].
    assert (Hprinted : forall line,
               HttpGet url ∈ print_contract_output horizon_url tx_hash tx_data
                              ++ [Printed line] -> False).
    { intros line H. unfold print_contract_output in H. cbn [app] in H.
      repeat (apply elem_of_cons in H as [H | H]; [discriminate H|]).
      inversion H. }
    destruct heartbeat_url as [u |]; [| exfalso; exact (Hprinted _ Hin)].
    cbn [truthy] in *. destruct (decide (u = "")) as [-> | Hu].
    + rewrite bool_decide_eq_true_2 in Hin by reflexivity. cbn [negb] in Hin.
      exfalso. exact (Hprinted _ Hin).
    + rewrite bool_decide_eq_false_2 in * by exact Hu. cbn [negb] in *.
      assert (Hurl : url = u).
      { destruct (http_get u); cbn [fst] in Hin;
          apply elem_of_app in Hin as [Hin | Hin];
          try (apply list_elem_of_singleton in Hin; congruence);
          unfold print_contract_output in Hin;
          repeat (apply elem_of_cons in Hin as [Hin | Hin]; [discriminate Hin|]);
          inversion Hin. }
      subst u. split; [reflexivity|]. split; [exact Hu|].
      exists tx_hash, tx_data. split; [reflexivity|].
      destruct (http_get url) as [[] | e]; split; reflexivity.
  - intros tx_hash tx_data ->. split.
    + intros Hfalse. destruct heartbeat_url as [u |]; [| reflexivity].
      rewrite Hfalse. reflexivity.
    + intros url -> Hu. cbn [truthy].
      rewrite bool_decide_eq_false_2 by exact Hu. cbn [negb].
      destruct (http_get url); cbn [fst]; apply elem_of_app; right; left.
Qed.

End Sep40Further.

Lemma perform_rpc_request_outcomes_witness :
  299 < Sep40Cli.status_code server_error
  /\ process_exit_code (Sep40Cli.perform_rpc_request server_error).2 = 1.
Proof.
  assert (H : 299 < Sep40Cli.status_code server_error) by (cbn; lia).
  split; [exact H|].
  exact (proj2 (proj1 (perform_rpc_request_outcomes server_error) H)).
Defined.

Lemma add_price_heartbeat_witness :
  (fun _ : list FeedBulkFromDb.ParsedPrice.t =>
     @Raise (string * string) (RuntimeError "transaction failed"))
    [ {| FeedBulkFromDb.ParsedPrice.source := 0;
         FeedBulkFromDb.ParsedPrice.asset_type := "other";
         FeedBulkFromDb.ParsedPrice.asset := "USD";
         FeedBulkFromDb.ParsedPrice.price := "1.00";
         FeedBulkFromDb.ParsedPrice.timestamp := 1200 |} ]
  = Raise (RuntimeError "transaction failed")
  /\ Sep40Commands.oracle_add_price
       (fun _ => Raise (RuntimeError "transaction failed"))
       (fun _ => Return tt) "https://horizon" (Some "https://beat")
       0 Sep40Cli.other "USD" "1.00" 1200
     = ([], Raise (RuntimeError "transaction failed")).
Proof.
  split; [reflexivity|].
  exact (proj1 (add_price_heartbeat
                  (fun _ => Raise (RuntimeError "transaction failed"))
                  (fun _ => Return tt) "https://horizon" (Some "https://beat")
                  0 Sep40Cli.other "USD" "1.00" 1200)
           (RuntimeError "transaction failed") eq_refl).
Defined.

Lemma invoke_and_output_outcomes_witness :
  PriceUpDownCli.send_status pending_send = PriceUpDownCli.PENDING
  /\ PriceUpDownCli.wait_tx 1 false failed_poll 0 = Some ([], failed_poll 0)
  /\ PriceUpDownCli.status (failed_poll 0) <> PriceUpDownCli.SUCCESS
  /\ @PriceUpDownOutput.invoke_and_output
       {| PriceUpDownOutput.str_data := fun _ => "<value>" |}
       1 false "AAAA" "AAAB" pending_send failed_poll None
     = Some ([] ++ PriceUpDownCli.print_error ("Error: " +:+ "<failed>"),
             Failed (Known (TyperExit 0))).
Proof.
  assert (H2 : PriceUpDownCli.wait_tx 1 false failed_poll 0 = Some ([], failed_poll 0))
    by reflexivity.
  assert (H3 : PriceUpDownCli.status (failed_poll 0) <> PriceUpDownCli.SUCCESS)
    by discriminate.
  split; [reflexivity|]. split; [exact H2|]. split; [exact H3|].
  exact (proj1 (@invoke_and_output_outcomes
                  {| PriceUpDownOutput.str_data := fun _ => "<value>" |}
                  1 "AAAA" "AAAB" pending_send failed_poll [] (failed_poll 0)
                  eq_refl H2) H3 None).
Defined.
